(** * Investigation orchestration of the DLQ monitor: a shallow embedding

    Two parts of the Python code are embedded here.

    - [NeuroDB]: the persistence layer [DatabaseService]
      (src/dlq_monitor/services/database_service.py) over the SQLAlchemy
      models of src/dlq_monitor/models/neurocenter_models.py.  A row of
      [Investigation] is a Python object whose attributes are set by name
      ([setattr]/[hasattr]), so it is modelled as a map from attribute name
      to a dynamic Python value.  Every [with self.get_session()] block is
      one transaction: it reads the committed database and commits its own
      writes when it ends.

    - [Monitor]: the auto-investigation path of [DLQMonitor]
      (src/dlq_monitor/core/monitor.py): the alert deduplication of
      [_handle_alert], the gate [_should_auto_investigate] and the
      supervising thread body [run_investigation] of
      [_execute_claude_investigation].  Python exceptions and the shared
      dictionaries of the monitor object are threaded through a small
      state-and-exception monad.

    Around them: the agent and mapping tables of [DatabaseService]
    ([NeuroAgents], [NeuroDetails]), the [InvestigationService] that drives
    an investigation through them (src/dlq_monitor/services/
    investigation_service.py, [NeuroService]), the queue discovery
    ([Discovery]) and the pull request reminders of [PRMonitor] ([PRWatch]).

    Time is a naive local [datetime] counted in microseconds since the
    epoch (a [Z]); a [timedelta] is a difference of two such values. *)

From Stdlib Require Import ZArith List String Lia.
From Stdlib Require Import Sorted.
From stdpp Require Import base gmap strings list pretty.

Open Scope string_scope.
Open Scope Z_scope.

(** ** Python values and datetimes *)

(** The dynamic values stored in the attributes of an ORM object. *)
Inductive pyval :=
  | PyNone
  | PyBool (b : bool)
  | PyInt (n : Z)
  | PyStr (s : string)
  | PyDateTime (us : Z)          (** a naive datetime, microseconds *)
  | PyFloatSeconds (us : Z)      (** the float [us / 10^6] of [total_seconds()] *)
  | PyJson (s : string).         (** a JSON column value, kept as its text *)

#[global] Instance pyval_eq_dec : EqDecision pyval.
Proof. solve_decision. Defined.

(** Python truthiness, as used by [if investigation.started_at] and
    [event_icon or 'info-circle']. *)
Definition truthy (v : pyval) : bool :=
  match v with
  | PyNone => false
  | PyBool b => b
  | PyInt n => negb (Z.eqb n 0)
  | PyStr s => negb (String.eqb s "")
  | PyDateTime _ => true
  | PyFloatSeconds us => negb (Z.eqb us 0)
  | PyJson s => negb (String.eqb s "{}")
  end.

Definition us_per_second : Z := 1000000.
Definition us_per_day : Z := 86400 * us_per_second.

(** [timedelta.seconds]: the seconds component of the normalised timedelta,
    [0 <= seconds < 86400]; the [days] component is dropped. *)
Definition timedelta_seconds (d_us : Z) : Z :=
  (d_us mod us_per_day) / us_per_second.

(** [timedelta.total_seconds() < limit] for an integer [limit], compared
    exactly on the microsecond count. *)
Definition total_seconds_lt (d_us : Z) (limit : Z) : bool :=
  d_us <? limit * us_per_second.

(** Civil date of a day count (proleptic Gregorian calendar, day 0 is
    1970-01-01), as [datetime] computes it. *)
Definition civil_from_days (days : Z) : Z * Z * Z :=
  let z := days + 719468 in
  let era := z / 146097 in
  let doe := z - era * 146097 in
  let yoe := (doe - doe / 1460 + doe / 36524 - doe / 146096) / 365 in
  let doy := doe - (365 * yoe + yoe / 4 - yoe / 100) in
  let mp := (5 * doy + 2) / 153 in
  let d := doy - (153 * mp + 2) / 5 + 1 in
  let m := if mp <? 10 then mp + 3 else mp - 9 in
  let y := yoe + era * 400 in
  ((if m <=? 2 then y + 1 else y), m, d).

(** Zero-padded decimal of width [w] ([%Y], [%m], [%d], [%H], ...). *)
Fixpoint zero_pad (w : nat) (n : Z) : string :=
  match w with
  | O => ""
  | S w' => zero_pad w' (n / 10)
            ++ String (Ascii.ascii_of_nat (48 + Z.to_nat (n mod 10))) ""
  end.

(** [dt.strftime('%Y%m%d_%H%M%S')]. *)
Definition strftime_Ymd_HMS (t : Z) : string :=
  let days := t / us_per_day in
  let secs := (t mod us_per_day) / us_per_second in
  let '(y, m, d) := civil_from_days days in
  zero_pad 4 y ++ zero_pad 2 m ++ zero_pad 2 d ++ "_"
  ++ zero_pad 2 (secs / 3600) ++ zero_pad 2 ((secs mod 3600) / 60)
  ++ zero_pad 2 (secs mod 60).

(** Python's [k in l] for a list of strings. *)
Definition str_mem (k : string) (l : list string) : bool :=
  existsb (String.eqb k) l.

(** Python's [s[:n]]. *)
Definition str_prefix (n : nat) (s : string) : string := substring 0 n s.

(** ** The persistence layer: [DatabaseService] *)

Module NeuroDB.

(** A row of the [Investigation] model: attribute name to value. *)
Abbreviation Investigation := (gmap string pyval).

(** The [Column]s of [class Investigation(Base)]: the persisted attributes. *)
Definition investigation_columns : list string :=
  ["id"; "investigation_id"; "dlq_name"; "message_count"; "error_type";
   "error_message"; "status"; "progress"; "agent_id"; "started_at";
   "completed_at"; "duration_seconds"; "initial_prompt"; "root_cause";
   "proposed_fix"; "code_diff"; "stack_trace"; "cloudwatch_logs";
   "pr_number"; "pr_url"; "pr_status"; "pr_created_at"; "environment";
   "region"; "extra_data"; "created_at"; "updated_at"].

(** The other attributes an [Investigation] instance has ([hasattr] is true
    for them): its relationships, the declarative-base attributes and the
    methods inherited from [object].  Assigning them changes no column;
    assigning the relationships [agent] and [timeline_events] is not
    modelled. *)
Definition investigation_other_attrs : list string :=
  ["agent"; "timeline_events"; "metadata"; "registry"; "__tablename__";
   "__table__"; "__table_args__"; "__mapper__"; "_sa_class_manager";
   "_sa_registry"; "_sa_instance_state"; "__class__"; "__dict__";
   "__doc__"; "__module__"; "__init__"; "__repr__"; "__str__"; "__eq__";
   "__ne__"; "__hash__"; "__lt__"; "__le__"; "__gt__"; "__ge__";
   "__getattribute__"; "__setattr__"; "__delattr__"; "__dir__";
   "__format__"; "__new__"; "__reduce__"; "__reduce_ex__"; "__sizeof__";
   "__subclasshook__"; "__init_subclass__"; "__weakref__"].

Definition is_column (k : string) : bool := str_mem k investigation_columns.

(** [hasattr(investigation, key)]. *)
Definition hasattr (k : string) : bool :=
  is_column k || str_mem k investigation_other_attrs.

(** [getattr(investigation, key)] for a column. *)
Definition attr (r : Investigation) (k : string) : pyval :=
  default PyNone (r !! k).

(** [setattr(investigation, key, value)], as seen by the persisted row. *)
Definition setattr (r : Investigation) (k : string) (v : pyval) : Investigation :=
  if is_column k then <[k := v]> r else r.

(** [InvestigationTimeline] rows (the JSON [data] payload is left out). *)
Record TimelineEvent := {
  ev_id : Z;
  ev_investigation_id : Z;           (** foreign key to [Investigation.id] *)
  ev_agent_id : option Z;
  ev_event_type : string;
  ev_event_title : string;
  ev_event_description : option string;
  ev_event_icon : string;
  ev_timestamp : Z
}.

(** The committed database: agents as [(agent_id, id)], investigations and
    the timeline, each in insertion order. *)
Record DB := {
  db_agents : list (string * Z);
  db_investigations : list Investigation;
  db_timeline : list TimelineEvent
}.

Inductive db_error := IntegrityError.

(** [session.query(Agent).filter_by(agent_id=agent_id).first()], its [id]. *)
Definition find_agent (db : DB) (agent_id : string) : option Z :=
  option_map snd (find (fun a => String.eqb (fst a) agent_id) (db_agents db)).

Definition row_has_id (iid : string) (r : Investigation) : bool :=
  bool_decide (r !! "investigation_id" = Some (PyStr iid)).

(** [session.query(Investigation).filter_by(investigation_id=...).first()]. *)
Definition find_investigation (db : DB) (iid : string) : option Investigation :=
  find (row_has_id iid) (db_investigations db).

(** The integer primary key [Investigation.id]. *)
Definition row_pk (r : Investigation) : Z :=
  match r !! "id" with Some (PyInt n) => n | _ => 0 end.

(** SQLite's choice of a new [INTEGER PRIMARY KEY]: one above the largest. *)
Definition next_rowid (ids : list Z) : Z := 1 + fold_right Z.max 0 ids.

(** [DatabaseService.add_timeline_event]: its own session, so it sees only
    the committed database. *)
Definition add_timeline_event (now : Z) (investigation_id : string)
    (event_type event_title : string) (event_description : option string)
    (event_icon : option string) (agent_id : option string) (db : DB) : DB :=
  match find_investigation db investigation_id with
  | None => db
  | Some investigation =>
      let agent :=
        match agent_id with
        | Some a => if String.eqb a "" then None else find_agent db a
        | None => None
        end in
      let icon :=
        match event_icon with
        | Some s => if String.eqb s "" then "info-circle" else s
        | None => "info-circle"
        end in
      let event := {|
        ev_id := next_rowid (map ev_id (db_timeline db));
        ev_investigation_id := row_pk investigation;
        ev_agent_id := agent;
        ev_event_type := event_type;
        ev_event_title := event_title;
        ev_event_description := event_description;
        ev_event_icon := icon;
        ev_timestamp := now |} in
      {| db_agents := db_agents db;
         db_investigations := db_investigations db;
         db_timeline := db_timeline db ++ [event] |}
  end.

(** The row [Investigation(...)] as inserted, with the column defaults
    ([default=...], [func.now()]) filled in at insert time. *)
Definition new_investigation_row (pk now : Z) (investigation_id dlq_name : string)
    (message_count : Z) (agent : option Z) (initial_prompt : option string)
    : Investigation :=
  list_to_map
    [("id", PyInt pk); ("investigation_id", PyStr investigation_id);
     ("dlq_name", PyStr dlq_name); ("message_count", PyInt message_count);
     ("error_type", PyNone); ("error_message", PyNone);
     ("status", PyStr "initiated"); ("progress", PyInt 0);
     ("agent_id", match agent with Some n => PyInt n | None => PyNone end);
     ("started_at", PyDateTime now); ("completed_at", PyNone);
     ("duration_seconds", PyNone);
     ("initial_prompt", match initial_prompt with Some p => PyStr p | None => PyNone end);
     ("root_cause", PyNone); ("proposed_fix", PyNone); ("code_diff", PyNone);
     ("stack_trace", PyNone); ("cloudwatch_logs", PyNone);
     ("pr_number", PyNone); ("pr_url", PyNone); ("pr_status", PyNone);
     ("pr_created_at", PyNone); ("environment", PyStr "prod");
     ("region", PyStr "sa-east-1"); ("extra_data", PyJson "{}");
     ("created_at", PyDateTime now); ("updated_at", PyDateTime now)].

(** [f"inv_{datetime.now().strftime('%Y%m%d_%H%M%S')}_{dlq_name[:20]}"]. *)
Definition make_investigation_id (now : Z) (dlq_name : string) : string :=
  "inv_" ++ strftime_Ymd_HMS now ++ "_" ++ str_prefix 20 dlq_name.

(** [DatabaseService.create_investigation].  The new row is only added to
    the outer session (not flushed) when the nested [add_timeline_event]
    opens its own session, so that call runs against the committed
    database.  The outer session commits when [return] leaves the [with]
    block; a duplicate [investigation_id] (a [unique=True] column) makes the
    commit raise [IntegrityError] and roll the outer session back. *)
Definition create_investigation (now : Z) (dlq_name : string) (message_count : Z)
    (agent_id : string) (initial_prompt : option string) (db : DB)
    : (string + db_error) * DB :=
  let agent := find_agent db agent_id in
  let investigation_id := make_investigation_id now dlq_name in
  let db1 :=
    add_timeline_event now investigation_id "detected"
      ("Error detected in queue: " ++ dlq_name)
      (Some (pretty message_count ++ " messages found in DLQ"))
      (Some "exclamation-triangle") None db in
  if existsb (row_has_id investigation_id) (db_investigations db1)
  then (inr IntegrityError, db1)
  else
    let pk := next_rowid (map row_pk (db_investigations db1)) in
    (inl investigation_id,
     {| db_agents := db_agents db1;
        db_investigations :=
          db_investigations db1
          ++ [new_investigation_row pk now investigation_id dlq_name
                message_count agent initial_prompt];
        db_timeline := db_timeline db1 |}).

(** [kwargs.get(key)]. *)
Definition kwargs_get (key : string) (kwargs : list (string * pyval)) : option pyval :=
  option_map snd (find (fun kv => String.eqb (fst kv) key) kwargs).

(** The body of [update_investigation] on the row it found: the [setattr]
    loop over [kwargs] guarded by [hasattr], then the completion stamp.
    [updated_at] carries [onupdate=func.now()]: it is refreshed by the
    flush whenever a column changed. *)
Definition setattr_step (r : Investigation) (kv : string * pyval) : Investigation :=
  if hasattr (fst kv) then setattr r (fst kv) (snd kv) else r.

(** [for key, value in kwargs.items(): if hasattr(...): setattr(...)]. *)
Definition setattr_loop (kwargs : list (string * pyval)) (r : Investigation)
    : Investigation :=
  fold_left setattr_step kwargs r.

Definition update_row (now : Z) (kwargs : list (string * pyval))
    (investigation : Investigation) : Investigation :=
  let r1 := setattr_loop kwargs investigation in
  let r2 :=
    if bool_decide (kwargs_get "status" kwargs = Some (PyStr "completed"))
    then match attr r1 "started_at" with
         | PyDateTime started =>
             <["duration_seconds" := PyFloatSeconds (now - started)]>
               (<["completed_at" := PyDateTime now]> r1)
         | _ => r1
         end
    else r1 in
  if bool_decide (r2 = investigation) then r2
  else <["updated_at" := PyDateTime now]> r2.

(** Apply [f] to the first element satisfying [p]. *)
Fixpoint update_first {A} (p : A -> bool) (f : A -> A) (l : list A) : list A :=
  match l with
  | [] => []
  | x :: l' => if p x then f x :: l' else x :: update_first p f l'
  end.

(** [DatabaseService.update_investigation]. *)
Definition update_investigation (now : Z) (investigation_id : string)
    (kwargs : list (string * pyval)) (db : DB) : DB :=
  match find_investigation db investigation_id with
  | None => db
  | Some _ =>
      {| db_agents := db_agents db;
         db_investigations :=
           update_first (row_has_id investigation_id) (update_row now kwargs)
             (db_investigations db);
         db_timeline := db_timeline db |}
  end.







End NeuroDB.

(** ** The auto-investigation path of [DLQMonitor] *)

Module Monitor.

(** A [subprocess.Popen] of [claude -p ...]: its pid, the time at which it
    exits on its own, and the exit code it then has. *)
Record Proc := {
  proc_pid : Z;
  proc_exits_at : Z;
  proc_returncode : Z
}.

(** What the monitor logs ([self.logger]) and the notifications it sends
    ([self.notifier]); emoji and free text are dropped. *)
Inductive Event :=
  | LogAlreadyRunning (queue_name : string)
  | LogCooldown (queue_name : string) (remaining_us : Z)
  | LogStarting (queue_name : string)
  | LogCompleted (queue_name : string)
  | LogFailed (queue_name : string) (returncode : Z)
  | LogTimedOut (queue_name : string)
  | LogError (queue_name : string)
  | LogFinished (queue_name : string)
  | Notify (title : string)
  | CriticalAlert (queue_name : string) (message_count : Z)
  | ThreadStarted (queue_name : string) (message_count : Z).

(** The attributes of the [DLQMonitor] object used on this path, the clock,
    and the pids that received [process.kill()]. *)
Record MState := {
  last_alerts : gmap string Z;
  auto_investigations : gmap string Z;
  investigation_processes : gmap string Proc;
  investigation_cooldown : Z;                (** seconds *)
  clock : Z;
  killed : list Z;
  events : list Event
}.

(** The fields of [MonitorConfig] used here. *)
Record MonitorConfig := {
  auto_investigate_dlqs : list string;
  claude_command_timeout : Z                 (** seconds *)
}.

Definition default_config : MonitorConfig := {|
  auto_investigate_dlqs := ["fm-digitalguru-api-update-dlq-prod"];
  claude_command_timeout := 1800 |}.

(** The state of [DLQMonitor.__init__] at time [t]. *)
Definition init_state (t : Z) : MState := {|
  last_alerts := ∅; auto_investigations := ∅; investigation_processes := ∅;
  investigation_cooldown := 3600; clock := t; killed := []; events := [] |}.

(** The outside world seen by one run: whether [send_notification] raises
    (e.g. [FileNotFoundError] when [osascript] is missing; a
    [CalledProcessError] is caught inside it and behaves as success here),
    and what [Popen] does: raise, or start a process that runs for a given
    number of microseconds and then exits with a given code. *)
Record World := {
  notify_raises : bool;
  popen_result : option (Z * Z * Z)          (** pid, run time, exit code *)
}.

Inductive exn := TimeoutExpired | OSError.

(** State and Python exceptions. *)
Definition M (A : Type) : Type := MState -> (A + exn) * MState.

#[global] Instance M_ret : MRet M := fun A a s => (inl a, s).
#[global] Instance M_bind : MBind M := fun A B f m s =>
  match m s with
  | (inl a, s') => f a s'
  | (inr e, s') => (inr e, s')
  end.

Definition throw {A} (e : exn) : M A := fun s => (inr e, s).
Definition get : M MState := fun s => (inl s, s).
Definition modify (f : MState -> MState) : M unit := fun s => (inl tt, f s).

(** [try: body / except E: handler / finally: fin], [handles] telling which
    exceptions [E] catches. *)
Definition try_except_finally {A} (body : M A) (handles : exn -> bool)
    (handler : exn -> M A) (fin : M unit) : M A := fun s =>
  let '(r, s1) := body s in
  let '(r', s2) :=
    match r with
    | inr e => if handles e then handler e s1 else (inr e, s1)
    | inl a => (inl a, s1)
    end in
  let '(rf, s3) := fin s2 in
  match rf with
  | inr e => (inr e, s3)
  | inl _ => (r', s3)
  end.

Definition set_events (l : list Event) (s : MState) : MState :=
  {| last_alerts := last_alerts s; auto_investigations := auto_investigations s;
     investigation_processes := investigation_processes s;
     investigation_cooldown := investigation_cooldown s; clock := clock s;
     killed := killed s; events := l |}.
Definition set_last_alerts (m : gmap string Z) (s : MState) : MState :=
  {| last_alerts := m; auto_investigations := auto_investigations s;
     investigation_processes := investigation_processes s;
     investigation_cooldown := investigation_cooldown s; clock := clock s;
     killed := killed s; events := events s |}.
Definition set_auto_investigations (m : gmap string Z) (s : MState) : MState :=
  {| last_alerts := last_alerts s; auto_investigations := m;
     investigation_processes := investigation_processes s;
     investigation_cooldown := investigation_cooldown s; clock := clock s;
     killed := killed s; events := events s |}.
Definition set_processes (m : gmap string Proc) (s : MState) : MState :=
  {| last_alerts := last_alerts s; auto_investigations := auto_investigations s;
     investigation_processes := m;
     investigation_cooldown := investigation_cooldown s; clock := clock s;
     killed := killed s; events := events s |}.
Definition set_clock (t : Z) (s : MState) : MState :=
  {| last_alerts := last_alerts s; auto_investigations := auto_investigations s;
     investigation_processes := investigation_processes s;
     investigation_cooldown := investigation_cooldown s; clock := t;
     killed := killed s; events := events s |}.
Definition set_killed (l : list Z) (s : MState) : MState :=
  {| last_alerts := last_alerts s; auto_investigations := auto_investigations s;
     investigation_processes := investigation_processes s;
     investigation_cooldown := investigation_cooldown s; clock := clock s;
     killed := l; events := events s |}.

Definition emit (e : Event) : M unit := modify (fun s => set_events (events s ++ [e]) s).

(** Time passing between two steps. *)
Definition advance (d : Z) : M unit := modify (fun s => set_clock (clock s + d) s).

(** [MacNotifier.send_notification]. *)
Definition send_notification (w : World) (title : string) : M unit :=
  if notify_raises w then throw OSError else emit (Notify title).

(** [MacNotifier.send_critical_alert]: the speech is wrapped in
    [try/except: pass]; the final [send_notification] is not. *)
Definition send_critical_alert (w : World) (queue_name : string) (message_count : Z)
    : M unit :=
  if notify_raises w then throw OSError else emit (CriticalAlert queue_name message_count).

(** [subprocess.Popen(cmd, ...)]. *)
Definition popen (w : World) : M Proc := fun s =>
  match popen_result w with
  | None => (inr OSError, s)
  | Some (pid, runtime, code) =>
      (inl {| proc_pid := pid; proc_exits_at := clock s + runtime;
              proc_returncode := code |}, s)
  end.

(** [process.poll()]: [None] while the process runs. *)
Definition poll (s : MState) (p : Proc) : option Z :=
  if existsb (Z.eqb (proc_pid p)) (killed s) then Some (-9)
  else if clock s <? proc_exits_at p then None
  else Some (proc_returncode p).

(** [process.communicate(timeout=...)]: the exit code if the process exits
    within the timeout, [TimeoutExpired] once the timeout has elapsed. *)
Definition communicate (p : Proc) (timeout : Z) : M Z := fun s =>
  if proc_exits_at p - clock s <=? timeout * us_per_second
  then (inl (proc_returncode p), set_clock (Z.max (clock s) (proc_exits_at p)) s)
  else (inr TimeoutExpired, set_clock (clock s + timeout * us_per_second) s).

(** [process.kill()]. *)
Definition kill (p : Proc) : M unit :=
  modify (fun s => set_killed (proc_pid p :: killed s) s).

Definition is_timeout_expired (e : exn) : bool :=
  match e with TimeoutExpired => true | _ => false end.

(** [run_investigation], the body of the thread started by
    [DLQMonitor._execute_claude_investigation]. *)
Definition run_investigation (cfg : MonitorConfig) (w : World)
    (queue_name : string) (message_count : Z) : M unit :=
  try_except_finally
    (emit (LogStarting queue_name) ;;
     send_notification w "AUTO-INVESTIGATION STARTED" ;;
     process ← popen w ;
     modify (fun s => set_processes
                        (<[queue_name := process]> (investigation_processes s)) s) ;;
     try_except_finally
       (returncode ← communicate process (claude_command_timeout cfg) ;
        if Z.eqb returncode 0
        then emit (LogCompleted queue_name) ;;
             send_notification w "AUTO-INVESTIGATION COMPLETED"
        else emit (LogFailed queue_name returncode) ;;
             send_notification w "AUTO-INVESTIGATION FAILED")
       is_timeout_expired
       (fun _ => emit (LogTimedOut queue_name) ;;
                 kill process ;;
                 send_notification w "AUTO-INVESTIGATION TIMEOUT")
       (modify (fun s => set_processes
                           (delete queue_name (investigation_processes s)) s)))
    (fun _ => true)
    (fun _ => emit (LogError queue_name) ;;
              send_notification w "AUTO-INVESTIGATION ERROR")
    (s ← get ;
     modify (fun s' => set_auto_investigations
                         (<[queue_name := clock s]> (auto_investigations s')) s') ;;
     emit (LogFinished queue_name)).

(** [DLQMonitor._should_auto_investigate]. *)
Definition should_auto_investigate (cfg : MonitorConfig) (queue_name : string)
    : M bool := fun s =>
  let check_cooldown (s : MState) : (bool + exn) * MState :=
    match auto_investigations s !! queue_name with
    | Some last_investigation =>
        let time_since_last := clock s - last_investigation in
        if total_seconds_lt time_since_last (investigation_cooldown s)
        then (inl false,
              set_events (events s ++ [LogCooldown queue_name
                 (investigation_cooldown s * us_per_second - time_since_last)]) s)
        else (inl true, s)
    | None => (inl true, s)
    end in
  if negb (str_mem queue_name (auto_investigate_dlqs cfg)) then (inl false, s)
  else
    match investigation_processes s !! queue_name with
    | Some proc =>
        match poll s proc with
        | None => (inl false, set_events (events s ++ [LogAlreadyRunning queue_name]) s)
        | Some _ =>
            check_cooldown (set_processes (delete queue_name (investigation_processes s)) s)
        end
    | None => check_cooldown s
    end.

(** [DLQMonitor._execute_claude_investigation]: starts the daemon thread
    whose body is [run_investigation] and returns at once. *)
Definition execute_claude_investigation (queue_name : string) (message_count : Z)
    : M unit :=
  emit (ThreadStarted queue_name message_count).

Record DLQAlert := {
  alert_queue_name : string;
  alert_message_count : Z;
  alert_timestamp : Z
}.

(** [DLQMonitor._handle_alert]; the console output is left out. *)
Definition handle_alert (cfg : MonitorConfig) (w : World) (alert : DLQAlert) : M unit :=
  let queue_name := alert_queue_name alert in
  s ← get ;
  let should_notify :=
    match last_alerts s !! queue_name with
    | None => true
    | Some last => 300 <? timedelta_seconds (clock s - last)
    end in
  if should_notify then
    send_critical_alert w queue_name (alert_message_count alert) ;;
    modify (fun s' => set_last_alerts
                        (<[queue_name := alert_timestamp alert]> (last_alerts s')) s') ;;
    should_auto_investigate cfg queue_name ≫= λ go : bool,
    if go then execute_claude_investigation queue_name (alert_message_count alert)
    else mret tt
  else mret tt.

(** [DLQMonitor.check_dlq_messages] over the [(name, message_count)] pairs
    read from the discovered queues. *)
Fixpoint check_dlq_messages (cfg : MonitorConfig) (w : World)
    (queues : list (string * Z)) : M (list DLQAlert) :=
  match queues with
  | [] => mret []
  | (queue_name, message_count) :: rest =>
      if 0 <? message_count then
        s ← get ;
        let alert := {| alert_queue_name := queue_name;
                        alert_message_count := message_count;
                        alert_timestamp := clock s |} in
        handle_alert cfg w alert ;;
        alerts ← check_dlq_messages cfg w rest ;
        mret (alert :: alerts)
      else check_dlq_messages cfg w rest
  end.

End Monitor.

(** ** Concrete databases used to evaluate the code *)

Module Samples.
Import NeuroDB.

(** A database holding only the default agents. *)
Definition db_fresh : DB := {|
  db_agents := [("investigator", 1); ("analyzer", 2); ("debugger", 3); ("reviewer", 4)];
  db_investigations := [];
  db_timeline := [] |}.

(** The investigation created for [orders-dlq] at the epoch. *)
Definition orders_iid : string := make_investigation_id 0 "orders-dlq".



End Samples.

Module MonitorSamples.
Import Monitor.

(** A world in which [claude] runs for [runtime] seconds and exits with
    [code]. *)
Definition world_exit (runtime code : Z) : World :=
  {| notify_raises := false; popen_result := Some (4242, runtime * us_per_second, code) |}.

Definition auto_queue : string := "fm-digitalguru-api-update-dlq-prod".

End MonitorSamples.

(** ** Strings as the Python code handles them *)

(** Python's [pat in s] for two strings; [''] is in every string. *)
Fixpoint str_contains (pat s : string) : bool :=
  String.prefix pat s ||
  match s with
  | EmptyString => false
  | String _ s' => str_contains pat s'
  end.

(** [str.lower()] on ASCII text (SQS queue names are ASCII letters,
    digits, [-] and [_]). *)
Definition ascii_lower (c : Ascii.ascii) : Ascii.ascii :=
  let n := Ascii.nat_of_ascii c in
  if (65 <=? n)%nat && (n <=? 90)%nat then Ascii.ascii_of_nat (n + 32) else c.

Fixpoint str_lower (s : string) : string :=
  match s with
  | EmptyString => EmptyString
  | String c s' => String (ascii_lower c) (str_lower s')
  end.

Definition ascii_upper (c : Ascii.ascii) : Ascii.ascii :=
  let n := Ascii.nat_of_ascii c in
  if (97 <=? n)%nat && (n <=? 122)%nat then Ascii.ascii_of_nat (n - 32) else c.

Definition ascii_is_letter (c : Ascii.ascii) : bool :=
  let n := Ascii.nat_of_ascii c in
  ((65 <=? n)%nat && (n <=? 90)%nat) || ((97 <=? n)%nat && (n <=? 122)%nat).

(** [str.title()] on ASCII text: a letter is upper-cased after a non-letter
    and lower-cased after a letter. *)
Fixpoint str_title_aux (after_letter : bool) (s : string) : string :=
  match s with
  | EmptyString => EmptyString
  | String c s' =>
      if ascii_is_letter c
      then String (if after_letter then ascii_lower c else ascii_upper c)
                  (str_title_aux true s')
      else String c (str_title_aux false s')
  end.

Definition str_title (s : string) : string := str_title_aux false s.

(** [s.replace(old, new)] for a one-character [old] and [new]. *)
Fixpoint str_replace_char (old new : Ascii.ascii) (s : string) : string :=
  match s with
  | EmptyString => EmptyString
  | String c s' =>
      String (if Ascii.eqb c old then new else c) (str_replace_char old new s')
  end.

Definition char_slash : Ascii.ascii := Ascii.ascii_of_nat 47.
Definition char_hyphen : Ascii.ascii := Ascii.ascii_of_nat 45.
Definition char_underscore : Ascii.ascii := Ascii.ascii_of_nat 95.
Definition char_space : Ascii.ascii := Ascii.ascii_of_nat 32.
Definition nl : string := String (Ascii.ascii_of_nat 10) EmptyString.

(** [s.split('/')[-1]]: the text after the last ['/'], or [s] when there
    is none. *)
Fixpoint split_last_aux (acc s : string) : string :=
  match s with
  | EmptyString => acc
  | String c s' =>
      if Ascii.eqb c char_slash then split_last_aux EmptyString s'
      else split_last_aux (acc ++ String c EmptyString) s'
  end.

Definition split_slash_last (s : string) : string := split_last_aux EmptyString s.


(** ** Agents and agent-DLQ mappings of [DatabaseService] *)

Module NeuroAgents.
Import NeuroDB.

(** [Agent] rows.  The float columns [average_runtime] and [success_rate]
    (and [config], [enabled], [created_at], [updated_at]) are left out. *)
Record AgentRow := {
  ag_id : Z;
  ag_agent_id : string;
  ag_name : string;
  ag_description : string;
  ag_agent_type : string;
  ag_status : string;
  ag_total_runs : Z;
  ag_successful_runs : Z;
  ag_failed_runs : Z;
  ag_current_task : option string;
  ag_current_target : option string;
  ag_started_at : option Z;
  ag_last_activity : option Z
}.

Definition has_agent_id (agent_id : string) (a : AgentRow) : bool :=
  String.eqb (ag_agent_id a) agent_id.

(** [session.query(Agent).filter_by(agent_id=agent_id).first()]. *)
Definition find_agent_row (agents : list AgentRow) (agent_id : string)
    : option AgentRow :=
  find (has_agent_id agent_id) agents.

(** [Agent(agent_id=..., name=..., description=..., agent_type=...,
    status='idle', created_at=...)] with the column defaults. *)
Definition new_agent_row (pk now : Z) (agent_id name description agent_type : string)
    : AgentRow := {|
  ag_id := pk; ag_agent_id := agent_id; ag_name := name;
  ag_description := description; ag_agent_type := agent_type;
  ag_status := "idle"; ag_total_runs := 0; ag_successful_runs := 0;
  ag_failed_runs := 0; ag_current_task := None; ag_current_target := None;
  ag_started_at := None; ag_last_activity := Some now |}.

(** [DatabaseService.register_agent]. *)
Definition register_agent (now : Z) (agent_id name description agent_type : string)
    (agents : list AgentRow) : list AgentRow :=
  match find_agent_row agents agent_id with
  | None =>
      (agents ++ [new_agent_row (next_rowid (map ag_id agents)) now agent_id name
                    description agent_type])%list
  | Some _ =>
      update_first (has_agent_id agent_id)
        (fun a => {|
           ag_id := ag_id a; ag_agent_id := ag_agent_id a; ag_name := name;
           ag_description := description; ag_agent_type := agent_type;
           ag_status := ag_status a; ag_total_runs := ag_total_runs a;
           ag_successful_runs := ag_successful_runs a;
           ag_failed_runs := ag_failed_runs a;
           ag_current_task := ag_current_task a;
           ag_current_target := ag_current_target a;
           ag_started_at := ag_started_at a;
           ag_last_activity := ag_last_activity a |})
        agents
  end.

(** Truthiness of an optional string argument ([if current_task:]). *)
Definition opt_truthy (o : option string) : option string :=
  match o with
  | Some s => if String.eqb s "" then None else Some s
  | None => None
  end.

(** The body of [update_agent_status] on the agent it found. *)
Definition set_agent_status (now : Z) (status : string)
    (current_task current_target : option string) (a : AgentRow) : AgentRow :=
  {| ag_id := ag_id a; ag_agent_id := ag_agent_id a; ag_name := ag_name a;
     ag_description := ag_description a; ag_agent_type := ag_agent_type a;
     ag_status := status;
     ag_total_runs := ag_total_runs a;
     ag_successful_runs := ag_successful_runs a;
     ag_failed_runs := ag_failed_runs a;
     ag_current_task :=
       match opt_truthy current_task with
       | Some t => Some t | None => ag_current_task a end;
     ag_current_target :=
       match opt_truthy current_target with
       | Some t => Some t | None => ag_current_target a end;
     ag_started_at :=
       if String.eqb status "running" && negb (bool_decide (is_Some (ag_started_at a)))
       then Some now
       else if str_mem status ["completed"; "idle"; "error"] then None
       else ag_started_at a;
     ag_last_activity := Some now |}.

(** [DatabaseService.update_agent_status]. *)
Definition update_agent_status (now : Z) (agent_id status : string)
    (current_task current_target : option string) (agents : list AgentRow)
    : list AgentRow :=
  update_first (has_agent_id agent_id)
    (set_agent_status now status current_task current_target) agents.

(** The counters of [record_agent_performance]; [duration_seconds] only
    feeds the float average, which is left out. *)
Definition count_run (success : bool) (a : AgentRow) : AgentRow :=
  {| ag_id := ag_id a; ag_agent_id := ag_agent_id a; ag_name := ag_name a;
     ag_description := ag_description a; ag_agent_type := ag_agent_type a;
     ag_status := ag_status a;
     ag_total_runs := ag_total_runs a + 1;
     ag_successful_runs :=
       if success then ag_successful_runs a + 1 else ag_successful_runs a;
     ag_failed_runs := if success then ag_failed_runs a else ag_failed_runs a + 1;
     ag_current_task := ag_current_task a;
     ag_current_target := ag_current_target a;
     ag_started_at := ag_started_at a;
     ag_last_activity := ag_last_activity a |}.

(** [DatabaseService.record_agent_performance]. *)
Definition record_agent_performance (agent_id : string) (success : bool)
    (agents : list AgentRow) : list AgentRow :=
  update_first (has_agent_id agent_id) (count_run success) agents.

(** [AgentDLQMapping] rows ([region], [created_at] and [updated_at] are
    left out).  [trigger_rule] is the JSON object, a list of its entries. *)
Record Mapping := {
  mp_id : Z;
  mp_agent_id : Z;                         (** foreign key to [Agent.id] *)
  mp_dlq_pattern : string;
  mp_trigger_type : string;
  mp_trigger_rule : list (string * pyval);
  mp_environment : string;
  mp_enabled : bool;
  mp_priority : Z;
  mp_times_triggered : Z;
  mp_last_triggered : option Z
}.

(** [mapping.agent]: the agent row the foreign key points to. *)
Definition agent_of (agents : list AgentRow) (pk : Z) : option AgentRow :=
  find (fun a => Z.eqb (ag_id a) pk) agents.

(** The same [(agent_id, dlq_pattern, environment)], refused by the
    [uq_agent_dlq_env] constraint. *)
Definition same_key (agent_pk : Z) (dlq_pattern environment : string) (m : Mapping)
    : bool :=
  Z.eqb (mp_agent_id m) agent_pk && String.eqb (mp_dlq_pattern m) dlq_pattern
  && String.eqb (mp_environment m) environment.

(** [DatabaseService.create_dlq_mapping]: [return True] leaves the [with]
    block, whose commit raises [IntegrityError] on a duplicate key. *)
Definition create_dlq_mapping (agent_id dlq_pattern trigger_type : string)
    (trigger_rule : option (list (string * pyval))) (environment : string)
    (agents : list AgentRow) (mappings : list Mapping)
    : (bool + db_error) * list Mapping :=
  match find_agent_row agents agent_id with
  | None => (inl false, mappings)
  | Some agent =>
      if existsb (same_key (ag_id agent) dlq_pattern environment) mappings
      then (inr IntegrityError, mappings)
      else
        (inl true,
         (mappings ++ [{| mp_id := next_rowid (map mp_id mappings);
                         mp_agent_id := ag_id agent;
                         mp_dlq_pattern := dlq_pattern;
                         mp_trigger_type := trigger_type;
                         mp_trigger_rule := default [] trigger_rule;
                         mp_environment := environment;
                         mp_enabled := true; mp_priority := 10;
                         mp_times_triggered := 0; mp_last_triggered := None |}])%list)
  end.

(** Remove the first element satisfying [p] ([session.delete(row)]). *)
Fixpoint remove_first {A} (p : A -> bool) (l : list A) : list A :=
  match l with
  | [] => []
  | x :: l' => if p x then l' else x :: remove_first p l'
  end.

(** [DatabaseService.delete_dlq_mapping]. *)
Definition delete_dlq_mapping (mapping_id : Z) (mappings : list Mapping)
    : bool * list Mapping :=
  match find (fun m => Z.eqb (mp_id m) mapping_id) mappings with
  | None => (false, mappings)
  | Some _ => (true, remove_first (fun m => Z.eqb (mp_id m) mapping_id) mappings)
  end.

(** The [filter] and [join(Agent)] of [find_agent_for_dlq]. *)
Definition mapping_selected (environment : string) (agents : list AgentRow)
    (m : Mapping) : bool :=
  mp_enabled m
  && (String.eqb (mp_environment m) "all" || String.eqb (mp_environment m) environment)
  && bool_decide (is_Some (agent_of agents (mp_agent_id m))).

(** [order_by(AgentDLQMapping.priority)]: a stable sort, rows of equal
    priority in table order. *)
Fixpoint insert_by_priority (m : Mapping) (l : list Mapping) : list Mapping :=
  match l with
  | [] => [m]
  | x :: l' => if mp_priority m <=? mp_priority x then m :: x :: l'
               else x :: insert_by_priority m l'
  end.

Definition sort_by_priority (l : list Mapping) : list Mapping :=
  fold_right insert_by_priority [] l.

Inductive find_error := TypeError.

(** [mapping.trigger_rule.get('threshold', 0)]. *)
Definition rule_threshold (rule : list (string * pyval)) : pyval :=
  default (PyInt 0) (kwargs_get "threshold" rule).

(** [message_count >= threshold]: an int or float threshold compares,
    anything else raises [TypeError]. *)
Definition count_reaches (message_count : Z) (threshold : pyval) : bool + find_error :=
  match threshold with
  | PyInt t => inl (t <=? message_count)
  | PyBool b => inl ((if b then 1 else 0) <=? message_count)
  | PyFloatSeconds us => inl (us <=? message_count * us_per_second)
  | _ => inr TypeError
  end.

(** [mapping.agent.agent_id]. *)
Definition mapping_agent_id (agents : list AgentRow) (m : Mapping) : string :=
  match agent_of agents (mp_agent_id m) with
  | Some a => ag_agent_id a
  | None => ""
  end.

(** The [for mapping in mappings] loop of [find_agent_for_dlq]: the agent
    returned, and the mapping whose trigger statistics are updated. *)
Fixpoint scan_mappings (dlq_name : string) (message_count : Z)
    (agents : list AgentRow) (ms : list Mapping)
    : option (string * option Z) + find_error :=
  match ms with
  | [] => inl None
  | m :: rest =>
      if str_contains (mp_dlq_pattern m) dlq_name || String.eqb (mp_dlq_pattern m) "*"
      then
        if String.eqb (mp_trigger_type m) "always"
        then inl (Some (mapping_agent_id agents m, None))
        else if String.eqb (mp_trigger_type m) "message_count"
        then match count_reaches message_count (rule_threshold (mp_trigger_rule m)) with
             | inr e => inr e
             | inl true => inl (Some (mapping_agent_id agents m, Some (mp_id m)))
             | inl false => scan_mappings dlq_name message_count agents rest
             end
        else scan_mappings dlq_name message_count agents rest
      else scan_mappings dlq_name message_count agents rest
  end.

(** [mapping.times_triggered += 1; mapping.last_triggered = datetime.now()]. *)
Definition bump_trigger (now : Z) (m : Mapping) : Mapping :=
  {| mp_id := mp_id m; mp_agent_id := mp_agent_id m;
     mp_dlq_pattern := mp_dlq_pattern m; mp_trigger_type := mp_trigger_type m;
     mp_trigger_rule := mp_trigger_rule m; mp_environment := mp_environment m;
     mp_enabled := mp_enabled m; mp_priority := mp_priority m;
     mp_times_triggered := mp_times_triggered m + 1;
     mp_last_triggered := Some now |}.

(** [DatabaseService.find_agent_for_dlq]; an exception rolls the session
    back. *)
Definition find_agent_for_dlq (now : Z) (dlq_name : string) (message_count : Z)
    (environment : string) (agents : list AgentRow) (mappings : list Mapping)
    : (string + find_error) * list Mapping :=
  match scan_mappings dlq_name message_count agents
          (sort_by_priority (List.filter (mapping_selected environment agents) mappings))
  with
  | inr e => (inr e, mappings)
  | inl None => (inl "investigator", mappings)
  | inl (Some (agent_id, None)) => (inl agent_id, mappings)
  | inl (Some (agent_id, Some pk)) =>
      (inl agent_id, update_first (fun m => Z.eqb (mp_id m) pk) (bump_trigger now) mappings)
  end.

End NeuroAgents.

(** ** Investigation details of [DatabaseService] *)

Module NeuroDetails.
Import NeuroDB.

(** [order_by(InvestigationTimeline.timestamp)], ties in table order. *)
Fixpoint insert_by_timestamp (e : TimelineEvent) (l : list TimelineEvent)
    : list TimelineEvent :=
  match l with
  | [] => [e]
  | x :: l' => if ev_timestamp e <=? ev_timestamp x then e :: x :: l'
               else x :: insert_by_timestamp e l'
  end.

Definition sort_by_timestamp (l : list TimelineEvent) : list TimelineEvent :=
  fold_right insert_by_timestamp [] l.

(** [DatabaseService.get_investigation_details], before the [_to_dict]
    conversions: the row and its timeline. *)
Definition get_investigation_details (db : DB) (investigation_id : string)
    : option (Investigation * list TimelineEvent) :=
  match find_investigation db investigation_id with
  | None => None
  | Some investigation =>
      Some (investigation,
            sort_by_timestamp
              (List.filter (fun e => Z.eqb (ev_investigation_id e) (row_pk investigation))
                 (db_timeline db)))
  end.

End NeuroDetails.

(** ** [InvestigationService] *)

Module NeuroService.
Import NeuroDB NeuroAgents.

(** An entry of [self.active_investigations]. *)
Record Active := {
  act_dlq_name : string;
  act_agent_id : string;
  act_started_at : Z
}.

(** The database tables and the service's [active_investigations].  The
    [(agent_id, id)] pairs read by [create_investigation] and
    [add_timeline_event] are a view of the same [agents] table. *)
Record Svc := {
  svc_agents : list AgentRow;
  svc_mappings : list Mapping;
  svc_investigations : list Investigation;
  svc_timeline : list TimelineEvent;
  svc_active : gmap string Active
}.

Definition agents_view (agents : list AgentRow) : list (string * Z) :=
  map (fun a => (ag_agent_id a, ag_id a)) agents.

Definition svc_db (s : Svc) : DB := {|
  db_agents := agents_view (svc_agents s);
  db_investigations := svc_investigations s;
  db_timeline := svc_timeline s |}.

(** Write back the investigations and the timeline of a [DB] (the
    [NeuroDB] operations never change its agents). *)
Definition with_db (db : DB) (s : Svc) : Svc := {|
  svc_agents := svc_agents s; svc_mappings := svc_mappings s;
  svc_investigations := db_investigations db; svc_timeline := db_timeline db;
  svc_active := svc_active s |}.

Definition set_agents (agents : list AgentRow) (s : Svc) : Svc := {|
  svc_agents := agents; svc_mappings := svc_mappings s;
  svc_investigations := svc_investigations s; svc_timeline := svc_timeline s;
  svc_active := svc_active s |}.

Definition set_mappings (ms : list Mapping) (s : Svc) : Svc := {|
  svc_agents := svc_agents s; svc_mappings := ms;
  svc_investigations := svc_investigations s; svc_timeline := svc_timeline s;
  svc_active := svc_active s |}.

Definition set_active (m : gmap string Active) (s : Svc) : Svc := {|
  svc_agents := svc_agents s; svc_mappings := svc_mappings s;
  svc_investigations := svc_investigations s; svc_timeline := svc_timeline s;
  svc_active := m |}.

Inductive svc_error :=
  | DBError (e : db_error)
  | MappingError (e : find_error).

(** [InvestigationService._get_event_icon]. *)
Definition event_icon_map : list (string * string) :=
  [("detected", "alert-triangle"); ("launched", "rocket"); ("analyzing", "cpu");
   ("found_cause", "search"); ("proposed_fix", "wrench");
   ("pr_created", "git-pull-request"); ("completed", "check-circle");
   ("failed", "x-circle"); ("error", "alert-circle")].

Definition get_event_icon (event_type : string) : string :=
  default "info" (option_map snd (find (fun kv => String.eqb (fst kv) event_type)
                                   event_icon_map)).

(** [InvestigationService._generate_prompt]; each sample is given as its
    [json.dumps(sample, indent=2)] text. *)
Fixpoint samples_text (i : nat) (samples : list string) : string :=
  match samples with
  | [] => ""
  | s :: rest =>
      nl ++ "Sample " ++ pretty i ++ ":" ++ nl ++ s ++ nl ++ samples_text (S i) rest
  end.

Definition generate_prompt (dlq_name : string) (message_count : Z)
    (error_samples : option (list string)) : string :=
  let prompt := "Investigate DLQ '" ++ dlq_name ++ "' with " ++ pretty message_count
                ++ " messages." ++ nl in
  let prompt :=
    match error_samples with
    | Some ((_ :: _) as samples) =>
        prompt ++ nl ++ "Error samples:" ++ nl ++ samples_text 1 (firstn 3 samples)
    | _ => prompt
    end in
  prompt ++ nl ++ "Analyze the errors, identify root cause, and propose a fix.".

(** [InvestigationService.start_investigation] (environment ['prod']). *)
Definition start_investigation (now : Z) (dlq_name : string) (message_count : Z)
    (error_samples : option (list string)) (s : Svc) : (string + svc_error) * Svc :=
  let '(found, ms) :=
    find_agent_for_dlq now dlq_name message_count "prod" (svc_agents s) (svc_mappings s) in
  let s1 := set_mappings ms s in
  match found with
  | inr e => (inr (MappingError e), s1)
  | inl agent_id =>
      let '(created, db2) :=
        create_investigation now dlq_name message_count agent_id
          (Some (generate_prompt dlq_name message_count error_samples)) (svc_db s1) in
      let s2 := with_db db2 s1 in
      match created with
      | inr e => (inr (DBError e), s2)
      | inl investigation_id =>
          let s3 := set_agents
                      (update_agent_status now agent_id "running"
                         (Some ("Investigating " ++ dlq_name)) (Some dlq_name)
                         (svc_agents s2)) s2 in
          let s4 := with_db
                      (add_timeline_event now investigation_id "launched"
                         (str_title agent_id ++ " Agent launched")
                         (Some ("Starting investigation of " ++ pretty message_count
                                ++ " messages"))
                         (Some "play-circle") (Some agent_id) (svc_db s3)) s3 in
          (inl investigation_id,
           set_active (<[investigation_id := {| act_dlq_name := dlq_name;
                                                act_agent_id := agent_id;
                                                act_started_at := now |}]>
                         (svc_active s4)) s4)
      end
  end.

(** [InvestigationService.update_investigation_progress]. *)
Definition update_investigation_progress (now : Z) (investigation_id : string)
    (progress : Z) (status event_type event_title : string)
    (event_description : option string) (s : Svc) : Svc :=
  let s1 := with_db (update_investigation now investigation_id
                       [("progress", PyInt progress); ("status", PyStr status)]
                       (svc_db s)) s in
  match svc_active s1 !! investigation_id with
  | Some act =>
      with_db (add_timeline_event now investigation_id event_type event_title
                 event_description (Some (get_event_icon event_type))
                 (Some (act_agent_id act)) (svc_db s1)) s1
  | None => s1
  end.


(** [InvestigationService.propose_fix]. *)
Definition propose_fix (now : Z) (investigation_id proposed_fix code_diff : string)
    (files_affected : list string) (s : Svc) : Svc :=
  let s1 := with_db (update_investigation now investigation_id
                       [("proposed_fix", PyStr proposed_fix);
                        ("code_diff", PyStr code_diff);
                        ("progress", PyInt 75); ("status", PyStr "reviewing")]
                       (svc_db s)) s in
  with_db (add_timeline_event now investigation_id "proposed_fix" "Code fix proposed"
             (Some (pretty (length files_affected) ++ " files will be modified"))
             (Some "wrench") None (svc_db s1)) s1.

(** [InvestigationService.create_pr]. *)
Definition create_pr (now : Z) (investigation_id : string) (pr_number : Z)
    (pr_url pr_title : string) (s : Svc) : Svc :=
  let s1 := with_db (update_investigation now investigation_id
                       [("pr_number", PyInt pr_number); ("pr_url", PyStr pr_url);
                        ("pr_status", PyStr "open"); ("progress", PyInt 90);
                        ("status", PyStr "awaiting_review")]
                       (svc_db s)) s in
  with_db (add_timeline_event now investigation_id "pr_created"
             ("Pull Request #" ++ pretty pr_number ++ " created") (Some pr_title)
             (Some "git-pull-request") None (svc_db s1)) s1.

(** [InvestigationService.complete_investigation]. *)
Definition complete_investigation (now : Z) (investigation_id : string) (success : bool)
    (resolution_notes : option string) (s : Svc) : Svc :=
  let status := if success then "completed" else "failed" in
  let s1 := with_db (update_investigation now investigation_id
                       [("status", PyStr status); ("progress", PyInt 100)]
                       (svc_db s)) s in
  match svc_active s1 !! investigation_id with
  | None => s1
  | Some act =>
      let agent_id := act_agent_id act in
      let s2 := set_agents (update_agent_status now agent_id "idle" None None
                              (svc_agents s1)) s1 in
      let s3 := set_agents (record_agent_performance agent_id success
                              (svc_agents s2)) s2 in
      let s4 := with_db
                  (add_timeline_event now investigation_id "completed"
                     (if success then "Investigation completed" else "Investigation failed")
                     resolution_notes
                     (Some (if success then "check-circle" else "x-circle"))
                     (Some agent_id) (svc_db s3)) s3 in
      set_active (delete investigation_id (svc_active s4)) s4
  end.

End NeuroService.

(** ** Queue discovery of [DLQMonitor] *)

Module Discovery.

(** The [dlq_patterns] default of [MonitorConfig.__post_init__]. *)
Definition default_dlq_patterns : list string :=
  ["-dlq"; "-dead-letter"; "-deadletter"; "_dlq"; "-dl"].

(** [DLQMonitor._is_dlq]. *)
Definition is_dlq (dlq_patterns : list string) (queue_name : string) : bool :=
  existsb (fun pattern => str_contains pattern (str_lower queue_name)) dlq_patterns.

(** [DLQMonitor.discover_dlq_queues]: the pages of [list_queues], each
    the [QueueUrls] of the page ([[]] when the key is absent), or [None]
    when the paginator raises [ClientError].  The result is the
    [(name, url)] pairs. *)
Definition discover_dlq_queues (dlq_patterns : list string)
    (pages : option (list (list string))) : list (string * string) :=
  match pages with
  | None => []
  | Some ps =>
      flat_map (fun page =>
                  flat_map (fun queue_url =>
                              let queue_name := split_slash_last queue_url in
                              if is_dlq dlq_patterns queue_name
                              then [(queue_name, queue_url)] else [])
                    page) ps
  end.

End Discovery.

(** ** Pull request reminders of [PRMonitor] *)

Module PRWatch.

Record PRAlert := {
  pr_id : Z;
  pr_repo_name : string;
  pr_title : string;
  pr_author : string;
  pr_url : string;
  pr_created_at : Z;
  pr_first_seen : Z;
  pr_last_reminder : option Z
}.

(** [AudioNotifier]'s spoken announcements. *)
Inductive Announcement :=
  | AnnounceNew (repo_name title : string)
  | AnnounceReminder (repo_name title : string).

(** [send_audio_notification] catches the failures of the speech engine
    and [CalledProcessError]; a missing [say] binary raises
    [FileNotFoundError] out of it. *)
Inductive audio_exn := FileNotFoundError.

(** [repo_name.replace("-", " ").replace("_", " ")]. *)
Definition clean_for_speech (s : string) : string :=
  str_replace_char char_underscore char_space (str_replace_char char_hyphen char_space s).

(** [AudioNotifier.announce_new_pr] and [announce_pr_reminder], as the
    announcement they speak. *)
Definition announce_new_pr (repo_name title : string) : Announcement :=
  AnnounceNew (clean_for_speech repo_name) (clean_for_speech title).
Definition announce_pr_reminder (repo_name title : string) : Announcement :=
  AnnounceReminder (clean_for_speech repo_name) (clean_for_speech title).

(** [PRMonitor._should_send_reminder] at time [now]
    ([pr_reminder_interval] in seconds). *)
Definition should_send_reminder (pr_reminder_interval now : Z) (a : PRAlert) : bool :=
  match pr_last_reminder a with
  | None => pr_reminder_interval * us_per_second <=? now - pr_first_seen a
  | Some last => pr_reminder_interval * us_per_second <=? now - last
  end.

Definition set_last_reminder (t : Z) (a : PRAlert) : PRAlert :=
  {| pr_id := pr_id a; pr_repo_name := pr_repo_name a; pr_title := pr_title a;
     pr_author := pr_author a; pr_url := pr_url a; pr_created_at := pr_created_at a;
     pr_first_seen := pr_first_seen a; pr_last_reminder := Some t |}.

(** [PRMonitor.handle_pr_alerts]: [tracked_prs] and the announcements
    spoken, all [datetime.now()] of one call reading [now];
    [say_missing] makes every announcement raise. *)
Fixpoint handle_pr_alerts (say_missing : bool) (pr_reminder_interval now : Z)
    (pr_alerts : list PRAlert) (tracked : gmap Z PRAlert) (spoken : list Announcement)
    : (unit + audio_exn) * (gmap Z PRAlert * list Announcement) :=
  match pr_alerts with
  | [] => (inl tt, (tracked, spoken))
  | a :: rest =>
      match tracked !! pr_id a with
      | None =>
          if say_missing then (inr FileNotFoundError, (tracked, spoken))
          else handle_pr_alerts say_missing pr_reminder_interval now rest
                 (<[pr_id a := a]> tracked)
                 (spoken ++ [announce_new_pr (pr_repo_name a) (pr_title a)])%list
      | Some existing =>
          if should_send_reminder pr_reminder_interval now existing
          then
            if say_missing then (inr FileNotFoundError, (tracked, spoken))
            else handle_pr_alerts say_missing pr_reminder_interval now rest
                   (<[pr_id a := set_last_reminder now existing]> tracked)
                   (spoken ++ [announce_pr_reminder (pr_repo_name a) (pr_title a)])%list
          else handle_pr_alerts say_missing pr_reminder_interval now rest tracked spoken
      end
  end.

End PRWatch.

(** * Properties of the persistence layer *)

Module NeuroDBFacts.
Import NeuroDB.

Lemma find_update_first {A} (p : A -> bool) (f : A -> A) (l : list A) (x : A) :
  find p l = Some x -> p (f x) = true ->
  find p (update_first p f l) = Some (f x).
Proof.
  induction l as [|a l IH]; simpl; [discriminate|].
  intros Hf Hp. destruct (p a) eqn:E.
  - injection Hf as <-. simpl. by rewrite Hp.
  - simpl. rewrite E. auto.
Qed.

Lemma setattr_step_other (r : Investigation) (kv : string * pyval) (k : string) :
  fst kv <> k -> setattr_step r kv !! k = r !! k.
Proof.
  intros Hne. unfold setattr_step, setattr.
  destruct (hasattr (fst kv)), (is_column (fst kv)); try done.
  by rewrite lookup_insert_ne.
Qed.

Lemma setattr_loop_notin (kw : list (string * pyval)) (r : Investigation) (k : string) :
  k ∉ map fst kw -> setattr_loop kw r !! k = r !! k.
Proof.
  unfold setattr_loop. revert r.
  induction kw as [|kv kw IH]; intros r Hk; simpl; [done|].
  rewrite IH by set_solver. apply setattr_step_other. set_solver.
Qed.

Lemma hasattr_column (k : string) : is_column k = true -> hasattr k = true.
Proof. unfold hasattr. intros ->. done. Qed.

Lemma setattr_loop_in (kw : list (string * pyval)) (r : Investigation) (k : string) (v : pyval) :
  NoDup (map fst kw) -> In (k, v) kw -> is_column k = true ->
  setattr_loop kw r !! k = Some v.
Proof.
  unfold setattr_loop. revert r.
  induction kw as [|[k' v'] kw IH]; intros r Hnd Hin Hcol; simpl in *; [done|].
  apply NoDup_cons in Hnd as [Hnotin Hnd].
  destruct Hin as [Heq | Hin].
  - injection Heq as -> ->.
    pose proof (setattr_loop_notin kw (setattr_step r (k, v)) k) as Hl.
    unfold setattr_loop in Hl. rewrite Hl by done.
    unfold setattr_step, setattr. simpl.
    rewrite hasattr_column, Hcol by done. by rewrite lookup_insert_eq.
  - by apply IH.
Qed.


(** Outside the three columns the stamp step writes, [update_row] keeps
    what the [setattr] loop produced. *)
Lemma update_row_lookup (now : Z) (kw : list (string * pyval)) (r : Investigation) (k : string) :
  k <> "completed_at" -> k <> "duration_seconds" -> k <> "updated_at" ->
  update_row now kw r !! k = setattr_loop kw r !! k.
Proof.
  intros H1 H2 H3. unfold update_row.
  destruct (bool_decide (kwargs_get "status" kw = Some (PyStr "completed")));
    [destruct (attr (setattr_loop kw r) "started_at")|];
    case_bool_decide; rewrite ?lookup_insert_ne; done.
Qed.

Lemma row_has_id_update_row (now : Z) (kw : list (string * pyval)) (r : Investigation) (iid : string) :
  "investigation_id" ∉ map fst kw ->
  row_has_id iid (update_row now kw r) = row_has_id iid r.
Proof.
  intros Hk. unfold row_has_id.
  rewrite update_row_lookup by done. by rewrite setattr_loop_notin.
Qed.

Lemma find_row_has_id (l : list Investigation) (iid : string) (r : Investigation) :
  find (row_has_id iid) l = Some r -> row_has_id iid r = true.
Proof. intros H. by apply find_some in H as [_ H]. Qed.

Lemma kwargs_get_filter_hasattr (kw : list (string * pyval)) (k : string) :
  hasattr k = true ->
  kwargs_get k (List.filter (fun kv => hasattr (fst kv)) kw) = kwargs_get k kw.
Proof.
  intros Hk. unfold kwargs_get.
  induction kw as [|[k' v'] kw IH]; simpl; [done|].
  destruct (hasattr k') eqn:Hk'; simpl.
  - destruct (String.eqb k' k); auto.
  - destruct (String.eqb_spec k' k) as [->|]; [congruence|auto].
Qed.

Lemma setattr_loop_filter_hasattr (kw : list (string * pyval)) (r : Investigation) :
  setattr_loop (List.filter (fun kv => hasattr (fst kv)) kw) r = setattr_loop kw r.
Proof.
  unfold setattr_loop. revert r.
  induction kw as [|[k v] kw IH]; intros r; simpl; [done|].
  destruct (hasattr k) eqn:Hk; simpl.
  - apply IH.
  - replace (setattr_step r (k, v)) with r by (unfold setattr_step; simpl; by rewrite Hk).
    apply IH.
Qed.

Lemma update_row_filter_hasattr (now : Z) (kw : list (string * pyval)) (r : Investigation) :
  update_row now (List.filter (fun kv => hasattr (fst kv)) kw) r = update_row now kw r.
Proof.
  unfold update_row.
  rewrite setattr_loop_filter_hasattr, kwargs_get_filter_hasattr by done.
  reflexivity.
Qed.

Lemma update_first_ext {A} (p : A -> bool) (f g : A -> A) (l : list A) :
  (forall x, f x = g x) -> update_first p f l = update_first p g l.
Proof.
  intros Hfg. induction l as [|x l IH]; simpl; [done|].
  destruct (p x); [by rewrite Hfg | by rewrite IH].
Qed.

(** C10: for an [investigation_id] that is not stored, [update_investigation]
    and [add_timeline_event] return normally and change nothing, and the
    keyword arguments that are not attributes of an [Investigation] are
    ignored by [update_investigation]. *)
Theorem missing_id_and_unknown_fields_are_noops :
  (forall (now : Z) (iid : string) (kw : list (string * pyval)) (db : DB),
     find_investigation db iid = None -> update_investigation now iid kw db = db) /\
  (forall (now : Z) (iid ty title : string) (descr icon agent : option string) (db : DB),
     find_investigation db iid = None ->
     add_timeline_event now iid ty title descr icon agent db = db) /\
  (forall (now : Z) (iid : string) (kw : list (string * pyval)) (db : DB),
     update_investigation now iid kw db
     = update_investigation now iid (List.filter (fun kv => hasattr (fst kv)) kw) db).
Proof.
  split; [|split].
  - intros now iid kw db H. unfold update_investigation. by rewrite H.
  - intros now iid ty title descr icon agent db H. unfold add_timeline_event. by rewrite H.
  - intros now iid kw db. unfold update_investigation.
    destruct (find_investigation db iid); [|done].
    f_equal. apply update_first_ext. intros r. symmetry. apply update_row_filter_hasattr.
Qed.

(** The stored row after an update is the updated row. *)
Lemma find_after_update (now : Z) (iid : string) (kw : list (string * pyval)) (db : DB)
    (r : Investigation) :
  find_investigation db iid = Some r -> "investigation_id" ∉ map fst kw ->
  find_investigation (update_investigation now iid kw db) iid = Some (update_row now kw r).
Proof.
  intros Hf Hk. unfold update_investigation. rewrite Hf.
  unfold find_investigation. simpl. apply find_update_first; [done|].
  rewrite row_has_id_update_row by done. by eapply find_row_has_id.
Qed.










Lemma add_timeline_event_missing (now : Z) (iid ty title : string)
    (descr icon agent : option string) (db : DB) :
  find_investigation db iid = None ->
  add_timeline_event now iid ty title descr icon agent db = db.
Proof. intros H. unfold add_timeline_event. by rewrite H. Qed.

Lemma add_timeline_event_investigations (now : Z) (iid ty title : string)
    (descr icon agent : option string) (db : DB) :
  db_investigations (add_timeline_event now iid ty title descr icon agent db)
  = db_investigations db.
Proof. unfold add_timeline_event. by destruct (find_investigation db iid). Qed.

(** C1 (as the code has it): [create_investigation] looks at no other
    investigation of the queue.  When no stored investigation has the
    derived id [inv_<YYYYmmdd_HHMMSS>_<dlq_name[:20]>], it appends a new
    investigation in status ['initiated'] for the queue, whatever the
    status of the queue's earlier investigations; when one has that id
    (same queue prefix, same second), the commit fails with
    [IntegrityError]. *)
Theorem create_investigation_unguarded (now : Z) (dlq_name : string) (message_count : Z)
    (agent_id : string) (prompt : option string) (db : DB) :
  let iid := make_investigation_id now dlq_name in
  let res := create_investigation now dlq_name message_count agent_id prompt db in
  (existsb (row_has_id iid) (db_investigations db) = false ->
     fst res = inl iid /\
     exists r, db_investigations (snd res) = (db_investigations db ++ [r])%list /\
               r !! "dlq_name" = Some (PyStr dlq_name) /\
               r !! "status" = Some (PyStr "initiated")) /\
  (existsb (row_has_id iid) (db_investigations db) = true ->
     fst res = inr IntegrityError).
Proof.
  intros iid res. subst res. unfold create_investigation. fold iid.
  rewrite add_timeline_event_investigations. split.
  - intros Hno. rewrite Hno. split; [done|].
    eexists. split.
    + simpl. reflexivity.
    + unfold new_investigation_row. split; vm_compute; reflexivity.
  - intros Hyes. by rewrite Hyes.
Qed.

(** C1 fails: two creations for [orders-dlq] one second apart leave two
    investigations of that queue in the non-terminal status ['initiated']. *)
Lemma two_open_investigations_same_queue :
  let '(r1, db1) :=
    create_investigation 0 "orders-dlq" 7 "investigator" None Samples.db_fresh in
  let '(r2, db2) :=
    create_investigation us_per_second "orders-dlq" 7 "investigator" None db1 in
  r1 = inl "inv_19700101_000000_orders-dlq" /\
  r2 = inl "inv_19700101_000001_orders-dlq" /\
  length (List.filter
            (fun r => bool_decide (r !! "dlq_name" = Some (PyStr "orders-dlq"))
                      && bool_decide (r !! "status" = Some (PyStr "initiated")))
            (db_investigations db2)) = 2%nat.
Proof. vm_compute. repeat split. Qed.

(** [create_investigation] never writes its ['detected'] event when the
    new id is not stored yet: the event is attempted in a separate session
    that cannot see the unflushed new row. *)
Lemma create_investigation_timeline_unchanged (now : Z) (dlq_name : string)
    (message_count : Z) (agent_id : string) (prompt : option string) (db : DB) :
  find_investigation db (make_investigation_id now dlq_name) = None ->
  db_timeline (snd (create_investigation now dlq_name message_count agent_id prompt db))
  = db_timeline db.
Proof.
  intros Hnone. unfold create_investigation. cbv zeta.
  rewrite add_timeline_event_missing by done.
  destruct (existsb _ _); simpl; reflexivity.
Qed.

(** C6, evaluated: creating an investigation for [orders-dlq] on a fresh
    database stores no timeline event, so the ['launched'] event that
    [InvestigationService.start_investigation] adds next is the first one
    of the timeline ([update_agent_status], called in between, writes no
    timeline event). *)
Theorem detected_event_missing_from_timeline :
  let '(r, db1) :=
    create_investigation 0 "orders-dlq" 7 "investigator" None Samples.db_fresh in
  let db2 :=
    add_timeline_event 0 Samples.orders_iid "launched" "Investigator Agent launched"
      (Some "Starting investigation of 7 messages") (Some "play-circle")
      (Some "investigator") db1 in
  r = inl Samples.orders_iid /\ db_timeline db1 = [] /\
  map ev_event_type (db_timeline db2) = ["launched"].
Proof. vm_compute. repeat split. Qed.

(** ** Witnesses: the theorems above applied at concrete inputs *)

Lemma missing_id_and_unknown_fields_are_noops_witness :
  update_investigation 0 "inv_unknown" [("status", PyStr "completed")] Samples.db_fresh
  = Samples.db_fresh.
Proof.
  apply (proj1 missing_id_and_unknown_fields_are_noops). vm_compute. reflexivity.
Defined.



Lemma create_investigation_unguarded_witness :
  fst (create_investigation 0 "orders-dlq" 7 "investigator" None Samples.db_fresh)
    = inl (make_investigation_id 0 "orders-dlq") /\
  exists r, db_investigations
              (snd (create_investigation 0 "orders-dlq" 7 "investigator" None Samples.db_fresh))
            = (db_investigations Samples.db_fresh ++ [r])%list /\
            r !! "dlq_name" = Some (PyStr "orders-dlq") /\
            r !! "status" = Some (PyStr "initiated").
Proof.
  apply (proj1 (create_investigation_unguarded 0 "orders-dlq" 7 "investigator" None
                  Samples.db_fresh)).
  vm_compute. reflexivity.
Defined.

End NeuroDBFacts.

(** * Properties of the auto-investigation path *)

Module MonitorFacts.
Import Monitor MonitorSamples.

Ltac run_monad :=
  unfold run_investigation, try_except_finally, mbind, M_bind, mret, M_ret,
    emit, modify, get, send_notification, popen, communicate, kill, throw,
    is_timeout_expired in *.




(** C5: once the process is started, its outcome is classified by its run
    time against [claude_command_timeout] and by its exit code: within the
    timeout, exit code 0 is logged and notified as completed and any other
    code as failed; past the timeout the process is killed and the run is
    logged and notified as timed out.  The thread returns normally. *)
Theorem run_investigation_outcome (cfg : MonitorConfig) (w : World) (q : string)
    (mc : Z) (s : MState) (pid runtime code : Z) :
  notify_raises w = false ->
  popen_result w = Some (pid, runtime, code) ->
  let r := run_investigation cfg w q mc s in
  fst r = inl tt /\
  events (snd r)
  = (events s ++ [LogStarting q; Notify "AUTO-INVESTIGATION STARTED"]
     ++ (if runtime <=? claude_command_timeout cfg * us_per_second
         then if Z.eqb code 0
              then [LogCompleted q; Notify "AUTO-INVESTIGATION COMPLETED"]
              else [LogFailed q code; Notify "AUTO-INVESTIGATION FAILED"]
         else [LogTimedOut q; Notify "AUTO-INVESTIGATION TIMEOUT"])
     ++ [LogFinished q])%list /\
  killed (snd r)
  = (if runtime <=? claude_command_timeout cfg * us_per_second
     then killed s else pid :: killed s).
Proof.
  intros Hn Hp r. subst r. run_monad. rewrite Hn, Hp. simpl.
  replace (clock s + runtime - clock s) with runtime by lia.
  destruct (runtime <=? _); simpl; [destruct (Z.eqb code 0)|]; simpl;
    rewrite <- !app_assoc; simpl; repeat split.
Qed.

(** C3, evaluated: an alert at time 0 approves an investigation for the
    auto-investigated queue and starts its thread, yet records no cooldown
    time; the thread records one only when it finishes, at 1200 s, when the
    process exits. *)
Theorem cooldown_recorded_at_finish :
  let s1 := snd (check_dlq_messages default_config (world_exit 1200 0)
                   [(auto_queue, 7)] (init_state 0)) in
  let s2 := snd (run_investigation default_config (world_exit 1200 0) auto_queue 7 s1) in
  In (ThreadStarted auto_queue 7) (events s1) /\
  auto_investigations s1 !! auto_queue = None /\
  auto_investigations s2 !! auto_queue = Some (1200 * us_per_second).
Proof. vm_compute. split; [tauto|split; reflexivity]. Qed.

(** C9, evaluated: one day and 100 s after the last alert on [orders-dlq],
    a snapshot with 7 pending messages raises no alert notification and
    leaves [last_alerts] as it was, because [timedelta.seconds] is 100
    there. *)
Theorem realert_suppressed_after_a_day :
  let s0 := set_last_alerts {[ "orders-dlq" := 0 ]}
              (init_state ((86400 + 100) * us_per_second)) in
  let r := check_dlq_messages default_config (world_exit 1 0) [("orders-dlq", 7)] s0 in
  timedelta_seconds (clock s0 - 0) = 100 /\
  events (snd r) = [] /\
  last_alerts (snd r) !! "orders-dlq" = Some 0.
Proof. vm_compute. repeat split. Qed.

(** ** Witnesses: the theorems above applied at concrete inputs *)


Lemma run_investigation_outcome_witness :
  let r := run_investigation default_config (world_exit 1200 1) auto_queue 7 (init_state 0) in
  fst r = inl tt /\
  events (snd r)
  = (events (init_state 0) ++ [LogStarting auto_queue; Notify "AUTO-INVESTIGATION STARTED"]
     ++ (if 1200 * us_per_second <=? claude_command_timeout default_config * us_per_second
         then if Z.eqb 1 0
              then [LogCompleted auto_queue; Notify "AUTO-INVESTIGATION COMPLETED"]
              else [LogFailed auto_queue 1; Notify "AUTO-INVESTIGATION FAILED"]
         else [LogTimedOut auto_queue; Notify "AUTO-INVESTIGATION TIMEOUT"])
     ++ [LogFinished auto_queue])%list /\
  killed (snd r)
  = (if 1200 * us_per_second <=? claude_command_timeout default_config * us_per_second
     then killed (init_state 0) else 4242 :: killed (init_state 0)).
Proof.
  apply (run_investigation_outcome default_config (world_exit 1200 1) auto_queue 7
           (init_state 0) 4242 (1200 * us_per_second) 1); reflexivity.
Defined.

End MonitorFacts.

(** * Properties of queue discovery *)

Module DiscoveryFacts.
Import Discovery.

Lemma ascii_lower_idem (c : Ascii.ascii) : ascii_lower (ascii_lower c) = ascii_lower c.
Proof.
  destruct c as [[] [] [] [] [] [] [] []]; vm_compute; reflexivity.
Qed.

Lemma str_lower_idem (s : string) : str_lower (str_lower s) = str_lower s.
Proof. induction s as [|c s IH]; simpl; [done|]. by rewrite ascii_lower_idem, IH. Qed.

(** [_is_dlq] ignores case: a queue name and its lower-case form are
    classified alike, for any list of patterns. *)
Theorem is_dlq_case_insensitive (dlq_patterns : list string) (queue_name : string) :
  is_dlq dlq_patterns (str_lower queue_name) = is_dlq dlq_patterns queue_name.
Proof. unfold is_dlq. by rewrite str_lower_idem. Qed.

(** With the default patterns, any queue whose lower-cased name contains
    ["-dl"] is taken for a DLQ, whatever follows (["-dlx"], ["-dlist"]). *)
Theorem dash_dl_names_are_dlqs (queue_name : string) :
  str_contains "-dl" (str_lower queue_name) = true ->
  is_dlq default_dlq_patterns queue_name = true.
Proof.
  intros H. unfold is_dlq, default_dlq_patterns. simpl existsb.
  rewrite H. by rewrite !orb_true_r.
Qed.

Lemma list_ascii_of_string_app (a b : string) :
  list_ascii_of_string (a ++ b) = (list_ascii_of_string a ++ list_ascii_of_string b)%list.
Proof. induction a as [|c a IH]; simpl; [done|]. by rewrite IH. Qed.

Lemma split_last_aux_no_slash (acc s : string) :
  char_slash ∉ list_ascii_of_string acc ->
  char_slash ∉ list_ascii_of_string (split_last_aux acc s).
Proof.
  revert acc. induction s as [|c s IH]; intros acc Hacc; simpl; [done|].
  destruct (Ascii.eqb c char_slash) eqn:E.
  - apply IH. simpl. set_solver.
  - apply IH. rewrite list_ascii_of_string_app. simpl.
    apply Ascii.eqb_neq in E. set_solver.
Qed.

(** Every queue returned by [discover_dlq_queues] was listed by SQS, is a
    DLQ by the patterns, and is named by the last segment of its URL,
    which holds no ['/']. *)
Theorem discovered_queues_are_dlqs (dlq_patterns : list string)
    (pages : list (list string)) (queue_name queue_url : string) :
  In (queue_name, queue_url) (discover_dlq_queues dlq_patterns (Some pages)) ->
  In queue_url (concat pages) /\ is_dlq dlq_patterns queue_name = true
  /\ queue_name = split_slash_last queue_url
  /\ char_slash ∉ list_ascii_of_string queue_name.
Proof.
  simpl. rewrite in_flat_map. intros (page & Hp & Hin).
  rewrite in_flat_map in Hin. destruct Hin as (url & Hu & Hin).
  destruct (is_dlq dlq_patterns (split_slash_last url)) eqn:E; [|destruct Hin].
  destruct Hin as [[= <- <-]|[]].
  split; [apply in_concat; eauto|]. split; [done|]. split; [done|].
  apply split_last_aux_no_slash. simpl. set_solver.
Qed.

(** Witnesses. *)
Lemma dash_dl_names_are_dlqs_witness :
  str_contains "-dl" (str_lower "Payments-DLX") = true
  /\ is_dlq default_dlq_patterns "Payments-DLX" = true.
Proof.
  split; [vm_compute; reflexivity|].
  apply dash_dl_names_are_dlqs. vm_compute. reflexivity.
Defined.

Lemma discovered_queues_are_dlqs_witness :
  In ("orders-dlq", "https://sqs.sa-east-1.amazonaws.com/1/orders-dlq")
     (discover_dlq_queues default_dlq_patterns
        (Some [["https://sqs.sa-east-1.amazonaws.com/1/orders";
                "https://sqs.sa-east-1.amazonaws.com/1/orders-dlq"]]))
  /\ char_slash ∉ list_ascii_of_string "orders-dlq".
Proof.
  assert (H : In ("orders-dlq", "https://sqs.sa-east-1.amazonaws.com/1/orders-dlq")
     (discover_dlq_queues default_dlq_patterns
        (Some [["https://sqs.sa-east-1.amazonaws.com/1/orders";
                "https://sqs.sa-east-1.amazonaws.com/1/orders-dlq"]]))).
  { vm_compute. left. reflexivity. }
  split; [exact H|].
  exact (proj2 (proj2 (proj2 (discovered_queues_are_dlqs _ _ _ _ H)))).
Defined.

End DiscoveryFacts.

(** * Properties of the alert path of [DLQMonitor] *)

Module MonitorGateFacts.
Import Monitor.

Ltac run_alert :=
  unfold handle_alert, send_critical_alert, execute_claude_investigation,
    mbind, M_bind, mret, M_ret, emit, modify, get, throw in *.

Lemma should_auto_investigate_returns (cfg : MonitorConfig) (q : string) (s : MState) :
  exists b s', should_auto_investigate cfg q s = (inl b, s').
Proof.
  unfold should_auto_investigate.
  destruct (negb _); [eauto|].
  destruct (investigation_processes s !! q) as [p|]; [destruct (poll s p)|];
    repeat (case_match; simpl); eauto.
Qed.

(** [_should_auto_investigate] on a queue outside [auto_investigate_dlqs]
    answers [False] and changes nothing: a running process is not reaped,
    nothing is logged. *)
Theorem unconfigured_queue_not_investigated (cfg : MonitorConfig) (q : string)
    (s : MState) :
  str_mem q (auto_investigate_dlqs cfg) = false ->
  should_auto_investigate cfg q s = (inl false, s).
Proof. intros H. unfold should_auto_investigate. by rewrite H. Qed.

(** [_should_auto_investigate] only touches the log and the queue's own
    process handle (deleted once the process has finished): it never
    changes [last_alerts], [auto_investigations], the cooldown, the
    other queues' handles or any process. *)
Theorem should_auto_investigate_frame (cfg : MonitorConfig) (q : string) (s : MState) :
  let s' := snd (should_auto_investigate cfg q s) in
  last_alerts s' = last_alerts s /\ auto_investigations s' = auto_investigations s
  /\ investigation_cooldown s' = investigation_cooldown s /\ clock s' = clock s
  /\ killed s' = killed s
  /\ (investigation_processes s' = investigation_processes s
      \/ investigation_processes s' = delete q (investigation_processes s)).
Proof.
  unfold should_auto_investigate. simpl.
  destruct (negb _); [simpl; auto 10|].
  destruct (investigation_processes s !! q) as [p|]; [destruct (poll s p)|];
    repeat (case_match; simpl); auto 10.
Qed.

(** While the process started for the queue is still running
    ([poll()] is [None]), [_should_auto_investigate] answers [False]. *)
Theorem running_investigation_not_restarted (cfg : MonitorConfig) (q : string)
    (s : MState) (p : Proc) :
  investigation_processes s !! q = Some p -> poll s p = None ->
  fst (should_auto_investigate cfg q s) = inl false.
Proof.
  intros Hp Hpoll. unfold should_auto_investigate.
  destruct (negb _); [done|]. by rewrite Hp, Hpoll.
Qed.

(** An alert for a queue already alerted whose [timedelta.seconds] since
    that alert is at most 300 is dropped without any effect: no
    notification, no update of [last_alerts], no investigation. *)
Theorem suppressed_alert_changes_nothing (cfg : MonitorConfig) (w : World)
    (alert : DLQAlert) (s : MState) (last : Z) :
  last_alerts s !! alert_queue_name alert = Some last ->
  timedelta_seconds (clock s - last) <= 300 ->
  handle_alert cfg w alert s = (inl tt, s).
Proof.
  intros Hl Ht. run_alert. rewrite Hl.
  replace (300 <? timedelta_seconds (clock s - last)) with false by lia. done.
Qed.

Lemma handle_alert_notified (cfg : MonitorConfig) (w : World) (alert : DLQAlert)
    (s : MState) :
  notify_raises w = false ->
  match last_alerts s !! alert_queue_name alert with
  | None => True
  | Some last => 300 < timedelta_seconds (clock s - last)
  end ->
  exists s', handle_alert cfg w alert s = (inl tt, s')
             /\ last_alerts s' = <[alert_queue_name alert := alert_timestamp alert]>
                                   (last_alerts s).
Proof.
  intros Hw Hl. run_alert.
  assert (Hn : match last_alerts s !! alert_queue_name alert with
               | Some last => 300 <? timedelta_seconds (clock s - last)
               | None => true end = true)
    by (destruct (last_alerts s !! _); [apply Z.ltb_lt|]; done).
  rewrite Hn, Hw. simpl.
  match goal with
  | |- context [should_auto_investigate ?c ?q ?s1] =>
      pose proof (should_auto_investigate_frame c q s1) as Hf;
      destruct (should_auto_investigate_returns c q s1) as (b & s2 & Hs)
  end.
  rewrite Hs in Hf |- *. simpl in Hf. destruct Hf as (Hla & _).
  destruct b; simpl; eexists; (split; [reflexivity|]); simpl; rewrite Hla; reflexivity.
Qed.

(** An alert that is notified (first alert for the queue, or more than
    300 [timedelta.seconds] after the last one) is recorded in
    [last_alerts] with the alert's timestamp, whether or not an
    investigation is started. *)
Theorem notified_alert_recorded (cfg : MonitorConfig) (w : World) (alert : DLQAlert)
    (s : MState) :
  notify_raises w = false ->
  match last_alerts s !! alert_queue_name alert with
  | None => True
  | Some last => 300 < timedelta_seconds (clock s - last)
  end ->
  exists s', handle_alert cfg w alert s = (inl tt, s')
             /\ last_alerts s' !! alert_queue_name alert = Some (alert_timestamp alert).
Proof.
  intros Hw Hl. destruct (handle_alert_notified cfg w alert s Hw Hl) as (s' & Hh & Hla).
  exists s'. split; [done|]. rewrite Hla. apply lookup_insert_eq.
Qed.

Lemma handle_alert_returns (cfg : MonitorConfig) (w : World) (alert : DLQAlert)
    (s : MState) :
  notify_raises w = false -> exists s', handle_alert cfg w alert s = (inl tt, s').
Proof.
  intros Hw.
  destruct (last_alerts s !! alert_queue_name alert) as [last|] eqn:Hl.
  - destruct (Z.lt_ge_cases 300 (timedelta_seconds (clock s - last))).
    + destruct (handle_alert_notified cfg w alert s Hw) as (s' & H' & _);
        [by rewrite Hl|eauto].
    + exists s. by eapply suppressed_alert_changes_nothing.
  - destruct (handle_alert_notified cfg w alert s Hw) as (s' & H' & _);
      [by rewrite Hl|eauto].
Qed.

(** When notifications work, [check_dlq_messages] returns one alert per
    queue with a positive message count, in the order of the queues, with
    that count, and none for an empty queue. *)
Theorem check_dlq_messages_alerts (cfg : MonitorConfig) (w : World)
    (queues : list (string * Z)) (s : MState) :
  notify_raises w = false ->
  exists alerts s', check_dlq_messages cfg w queues s = (inl alerts, s')
    /\ map (fun a => (alert_queue_name a, alert_message_count a)) alerts
       = List.filter (fun q => 0 <? snd q) queues.
Proof.
  intros Hw. revert s. induction queues as [|[q mc] rest IH]; intros s.
  - simpl. by exists [], s.
  - simpl. destruct (0 <? mc).
    + unfold mbind, M_bind, get, mret, M_ret.
      set (a := {| alert_queue_name := q; alert_message_count := mc;
                   alert_timestamp := clock s |}).
      destruct (handle_alert_returns cfg w a s Hw) as (s1 & H1). rewrite H1.
      destruct (IH s1) as (alerts & s2 & H2 & Hm). rewrite H2.
      exists (a :: alerts), s2. split; [done|]. simpl. by rewrite Hm.
    + apply IH.
Qed.

(** When notifications raise (no [osascript]), the first queue with
    messages that was never alerted ends [check_dlq_messages] with the
    exception: the queues after it are not checked in that cycle. *)
Theorem notification_failure_aborts_scan (cfg : MonitorConfig) (w : World)
    (q : string) (mc : Z) (rest : list (string * Z)) (s : MState) :
  notify_raises w = true -> 0 < mc -> last_alerts s !! q = None ->
  fst (check_dlq_messages cfg w ((q, mc) :: rest) s) = inr OSError.
Proof.
  intros Hw Hmc Hl. simpl.
  replace (0 <? mc) with true by lia. run_alert. simpl. rewrite Hl, Hw. done.
Qed.

(** Witnesses. *)
Lemma unconfigured_queue_not_investigated_witness :
  str_mem "orders-dlq" (auto_investigate_dlqs default_config) = false
  /\ should_auto_investigate default_config "orders-dlq" (init_state 0)
     = (inl false, init_state 0).
Proof.
  split; [vm_compute; reflexivity|].
  apply unconfigured_queue_not_investigated. vm_compute. reflexivity.
Defined.

Definition running_state : MState :=
  set_processes {[ MonitorSamples.auto_queue :=
                     {| proc_pid := 7; proc_exits_at := 100; proc_returncode := 0 |} ]}
    (init_state 0).

Lemma running_investigation_not_restarted_witness :
  investigation_processes running_state !! MonitorSamples.auto_queue
    = Some {| proc_pid := 7; proc_exits_at := 100; proc_returncode := 0 |}
  /\ poll running_state {| proc_pid := 7; proc_exits_at := 100; proc_returncode := 0 |}
     = None
  /\ fst (should_auto_investigate default_config MonitorSamples.auto_queue running_state)
     = inl false.
Proof.
  split; [vm_compute; reflexivity|]. split; [vm_compute; reflexivity|].
  apply (running_investigation_not_restarted _ _ _
           {| proc_pid := 7; proc_exits_at := 100; proc_returncode := 0 |});
    vm_compute; reflexivity.
Defined.

Definition alerted_state (t : Z) : MState :=
  set_clock t (set_last_alerts {[ "orders-dlq" := 0 ]} (init_state 0)).

Definition orders_alert (t : Z) : DLQAlert :=
  {| alert_queue_name := "orders-dlq"; alert_message_count := 3; alert_timestamp := t |}.

Lemma suppressed_alert_changes_nothing_witness :
  handle_alert default_config (MonitorSamples.world_exit 1 0) (orders_alert 0)
    (alerted_state (200 * us_per_second))
  = (inl tt, alerted_state (200 * us_per_second)).
Proof.
  apply (suppressed_alert_changes_nothing _ _ _ _ 0); vm_compute;
    [reflexivity|discriminate].
Defined.

Lemma notified_alert_recorded_witness :
  exists s', handle_alert default_config (MonitorSamples.world_exit 1 0)
               (orders_alert (400 * us_per_second)) (alerted_state (400 * us_per_second))
             = (inl tt, s')
             /\ last_alerts s' !! "orders-dlq" = Some (400 * us_per_second).
Proof.
  apply (notified_alert_recorded default_config (MonitorSamples.world_exit 1 0)
           (orders_alert (400 * us_per_second)));
    vm_compute; reflexivity.
Defined.

Lemma check_dlq_messages_alerts_witness :
  exists alerts s', check_dlq_messages default_config (MonitorSamples.world_exit 1 0)
                      [("a-dlq", 2); ("b-dlq", 0); ("c-dlq", 5)] (init_state 0)
                    = (inl alerts, s')
    /\ map (fun a => (alert_queue_name a, alert_message_count a)) alerts
       = [("a-dlq", 2); ("c-dlq", 5)].
Proof.
  apply (check_dlq_messages_alerts default_config (MonitorSamples.world_exit 1 0)
           [("a-dlq", 2); ("b-dlq", 0); ("c-dlq", 5)] (init_state 0)).
  reflexivity.
Defined.

Lemma notification_failure_aborts_scan_witness :
  fst (check_dlq_messages default_config
         {| notify_raises := true; popen_result := None |}
         [("a-dlq", 2); ("c-dlq", 5)] (init_state 0)) = inr OSError.
Proof.
  apply notification_failure_aborts_scan; [reflexivity|lia|reflexivity].
Defined.

End MonitorGateFacts.

(** * Properties of the agent and mapping operations *)

Module AgentFacts.
Import NeuroDB NeuroAgents.

Lemma update_first_none {A} (p : A -> bool) (f : A -> A) (l : list A) :
  find p l = None -> update_first p f l = l.
Proof.
  induction l as [|x l IH]; simpl; [done|].
  destruct (p x); [discriminate|]. intros H. by rewrite IH.
Qed.

Lemma update_first_Forall {A} (P : A -> Prop) (p : A -> bool) (f : A -> A) (l : list A) :
  (forall x, P x -> P (f x)) -> Forall P l -> Forall P (update_first p f l).
Proof.
  intros Hf. induction 1 as [|x l Hx Hl IH]; simpl; [constructor|].
  destruct (p x); constructor; auto.
Qed.

Lemma map_update_first {A B} (g : A -> B) (p : A -> bool) (f : A -> A) (l : list A) :
  (forall x, g (f x) = g x) -> map g (update_first p f l) = map g l.
Proof.
  intros Hg. induction l as [|x l IH]; simpl; [done|].
  destruct (p x); simpl; by rewrite ?Hg, ?IH.
Qed.

Lemma find_none_false {A} (p : A -> bool) (l : list A) (x : A) :
  find p l = None -> In x l -> p x = false.
Proof.
  induction l as [|y l IH]; simpl; [done|].
  destruct (p y) eqn:E; [discriminate|]. intros H [<-|Hin]; auto.
Qed.

Lemma find_agent_row_update (agents : list AgentRow) (agent_id : string)
    (f : AgentRow -> AgentRow) (a : AgentRow) :
  (forall x, ag_agent_id (f x) = ag_agent_id x) ->
  find_agent_row agents agent_id = Some a ->
  find_agent_row (update_first (has_agent_id agent_id) f agents) agent_id = Some (f a).
Proof.
  intros Hf Ha. unfold find_agent_row. apply NeuroDBFacts.find_update_first; [done|].
  unfold find_agent_row in Ha. apply find_some in Ha as [_ Ha].
  unfold has_agent_id in *. by rewrite Hf.
Qed.

(** [update_agent_status] and [record_agent_performance] on an unknown
    [agent_id] change nothing. *)
Theorem agent_updates_ignore_unknown_agent (now : Z) (agent_id status : string)
    (current_task current_target : option string) (success : bool)
    (agents : list AgentRow) :
  find_agent_row agents agent_id = None ->
  update_agent_status now agent_id status current_task current_target agents = agents
  /\ record_agent_performance agent_id success agents = agents.
Proof.
  intros H. unfold update_agent_status, record_agent_performance.
  split; by apply update_first_none.
Qed.

(** Marking an agent ['running'] a second time keeps the start time of
    the first: [started_at] is only set when it is empty. *)
Theorem running_again_keeps_start (t1 t2 : Z) (agent_id : string)
    (task1 target1 task2 target2 : option string) (agents : list AgentRow) :
  let agents1 := update_agent_status t1 agent_id "running" task1 target1 agents in
  option_map ag_started_at
    (find_agent_row (update_agent_status t2 agent_id "running" task2 target2 agents1)
       agent_id)
  = option_map ag_started_at (find_agent_row agents1 agent_id).
Proof.
  simpl. unfold update_agent_status.
  destruct (find_agent_row agents agent_id) as [a|] eqn:Ha.
  - pose proof (find_agent_row_update agents agent_id
                  (set_agent_status t1 "running" task1 target1) a (fun _ => eq_refl) Ha) as H1.
    pose proof (find_agent_row_update _ agent_id
                  (set_agent_status t2 "running" task2 target2) _ (fun _ => eq_refl) H1) as H2.
    rewrite H2, H1. simpl. destruct (ag_started_at a); simpl; reflexivity.
  - rewrite (update_first_none _ _ agents) by done.
    by rewrite (update_first_none _ _ agents).
Qed.

Definition runs_add_up (a : AgentRow) : Prop :=
  ag_total_runs a = ag_successful_runs a + ag_failed_runs a.

(** Every agent operation keeps [total_runs = successful_runs +
    failed_runs] for every agent: a new agent starts at [0 = 0 + 0],
    status updates leave the counters alone, and a recorded run adds one
    to [total_runs] and one to exactly one of the two others. *)
Theorem agent_operations_keep_run_counts (now : Z)
    (agent_id name description agent_type status : string)
    (current_task current_target : option string) (success : bool)
    (agents : list AgentRow) :
  Forall runs_add_up agents ->
  Forall runs_add_up (register_agent now agent_id name description agent_type agents)
  /\ Forall runs_add_up
       (update_agent_status now agent_id status current_task current_target agents)
  /\ Forall runs_add_up (record_agent_performance agent_id success agents).
Proof.
  unfold runs_add_up. intros H. split; [|split].
  - unfold register_agent. destruct (find_agent_row agents agent_id).
    + apply update_first_Forall; [|done]. intros x Hx. exact Hx.
    + apply Forall_app. split; [done|]. repeat constructor.
  - apply update_first_Forall; [|done]. intros x Hx. exact Hx.
  - apply update_first_Forall; [|done]. intros x Hx. simpl.
    destruct success; lia.
Qed.

(** [register_agent] never duplicates an [agent_id]: registering a known
    agent updates its row in place. *)
Theorem register_agent_keeps_ids_unique (now : Z)
    (agent_id name description agent_type : string) (agents : list AgentRow) :
  NoDup (map ag_agent_id agents) ->
  NoDup (map ag_agent_id (register_agent now agent_id name description agent_type agents)).
Proof.
  intros H. unfold register_agent.
  destruct (find_agent_row agents agent_id) as [a|] eqn:Ha.
  - by rewrite map_update_first.
  - rewrite map_app. simpl. apply NoDup_app. split; [done|]. split; [|apply NoDup_singleton].
    intros x Hx Hin. apply list_elem_of_singleton in Hin. subst x.
    apply list_elem_of_In, in_map_iff in Hx as (b & Hb & Hbin).
    pose proof (find_none_false _ _ _ Ha Hbin) as Hf.
    unfold has_agent_id in Hf. rewrite Hb, String.eqb_refl in Hf. discriminate.
Qed.

(** Registering an agent that exists again only renames and redescribes
    it: its status, run counters and current activity are kept. *)
Theorem register_agent_again_keeps_activity (now : Z)
    (agent_id name description agent_type : string) (agents : list AgentRow)
    (a : AgentRow) :
  find_agent_row agents agent_id = Some a ->
  exists a', find_agent_row (register_agent now agent_id name description agent_type agents)
               agent_id = Some a'
    /\ ag_name a' = name /\ ag_status a' = ag_status a
    /\ ag_total_runs a' = ag_total_runs a
    /\ ag_successful_runs a' = ag_successful_runs a
    /\ ag_failed_runs a' = ag_failed_runs a
    /\ ag_started_at a' = ag_started_at a
    /\ ag_current_task a' = ag_current_task a.
Proof.
  intros Ha. unfold register_agent. rewrite Ha.
  eexists. split; [apply find_agent_row_update; [intros; reflexivity|exact Ha]|].
  simpl. auto 10.
Qed.

Lemma le_max_fold (x : Z) (l : list Z) : In x l -> x <= fold_right Z.max 0 l.
Proof. induction l as [|y l IH]; simpl; [done|]. intros [<-|H]; [lia|]. apply IH in H. lia. Qed.

(** [create_dlq_mapping] for an unknown agent and [delete_dlq_mapping] of
    an unknown id answer [False] and change no mapping. *)
Theorem mapping_operations_on_unknown_rows (agent_id dlq_pattern trigger_type : string)
    (trigger_rule : option (list (string * pyval))) (environment : string)
    (mapping_id : Z) (agents : list AgentRow) (mappings : list Mapping) :
  find_agent_row agents agent_id = None ->
  (forall m, In m mappings -> mp_id m <> mapping_id) ->
  create_dlq_mapping agent_id dlq_pattern trigger_type trigger_rule environment agents
    mappings = (inl false, mappings)
  /\ delete_dlq_mapping mapping_id mappings = (false, mappings).
Proof.
  intros Ha Hm. unfold create_dlq_mapping. rewrite Ha. split; [done|].
  unfold delete_dlq_mapping.
  destruct (find (fun m => Z.eqb (mp_id m) mapping_id) mappings) as [m|] eqn:Hf; [|done].
  apply find_some in Hf as [Hin Heq]. apply Z.eqb_eq in Heq. by destruct (Hm m Hin).
Qed.

(** Deleting the mapping just created (its id is one above the largest)
    gives back the mappings as they were. *)
Theorem create_then_delete_mapping (agent_id dlq_pattern trigger_type : string)
    (trigger_rule : option (list (string * pyval))) (environment : string)
    (agents : list AgentRow) (mappings mappings' : list Mapping) :
  create_dlq_mapping agent_id dlq_pattern trigger_type trigger_rule environment agents
    mappings = (inl true, mappings') ->
  delete_dlq_mapping (next_rowid (map mp_id mappings)) mappings' = (true, mappings).
Proof.
  unfold create_dlq_mapping.
  destruct (find_agent_row agents agent_id) as [a|]; [|discriminate].
  destruct (existsb _ _); [discriminate|]. intros [= <-].
  assert (Hlt : forall m, In m mappings -> Z.eqb (mp_id m) (next_rowid (map mp_id mappings)) = false).
  { intros m Hm. apply Z.eqb_neq. unfold next_rowid.
    pose proof (le_max_fold (mp_id m) (map mp_id mappings) (in_map _ _ _ Hm)). lia. }
  unfold delete_dlq_mapping.
  assert (Hf : forall l, (forall m, In m l -> Z.eqb (mp_id m) (next_rowid (map mp_id mappings)) = false) ->
            forall x, mp_id x = next_rowid (map mp_id mappings) ->
            find (fun m => Z.eqb (mp_id m) (next_rowid (map mp_id mappings))) (l ++ [x]) = Some x
            /\ remove_first (fun m => Z.eqb (mp_id m) (next_rowid (map mp_id mappings))) (l ++ [x]) = l).
  { intros l. induction l as [|y l IH]; intros Hl x Hx; simpl.
    - rewrite Hx, Z.eqb_refl. done.
    - rewrite (Hl y (or_introl eq_refl)).
      destruct (IH (fun m Hm => Hl m (or_intror Hm)) x Hx) as [-> ->]. done. }
  match goal with
  | |- context [app mappings [?x]] => destruct (Hf mappings Hlt x eq_refl) as [-> ->]
  end.
  done.
Qed.

Lemma in_insert_by_priority (x m : Mapping) (l : list Mapping) :
  In x (insert_by_priority m l) <-> x = m \/ In x l.
Proof.
  induction l as [|y l IH]; simpl; [intuition congruence|].
  destruct (mp_priority m <=? mp_priority y); simpl; [intuition congruence|]. rewrite IH. intuition congruence.
Qed.

Lemma in_sort_by_priority (x : Mapping) (l : list Mapping) :
  In x (sort_by_priority l) <-> In x l.
Proof.
  induction l as [|y l IH]; simpl; [intuition congruence|].
  rewrite in_insert_by_priority, IH. intuition congruence.
Qed.

Lemma scan_mappings_some (dlq_name : string) (message_count : Z)
    (agents : list AgentRow) (l : list Mapping) (r : string) (o : option Z) :
  scan_mappings dlq_name message_count agents l = inl (Some (r, o)) ->
  exists m, In m l
    /\ (str_contains (mp_dlq_pattern m) dlq_name = true \/ mp_dlq_pattern m = "*")
    /\ r = mapping_agent_id agents m
    /\ ((mp_trigger_type m = "always" /\ o = None)
        \/ (mp_trigger_type m = "message_count"
            /\ count_reaches message_count (rule_threshold (mp_trigger_rule m)) = inl true
            /\ o = Some (mp_id m))).
Proof.
  induction l as [|m l IH]; simpl; [discriminate|].
  destruct (str_contains (mp_dlq_pattern m) dlq_name || String.eqb (mp_dlq_pattern m) "*")
    eqn:Hp.
  - destruct (String.eqb (mp_trigger_type m) "always") eqn:Ha.
    + intros [= <- <-]. exists m. apply orb_true_iff in Hp.
      rewrite String.eqb_eq in Hp, Ha. auto 10.
    + destruct (String.eqb (mp_trigger_type m) "message_count") eqn:Hc.
      * destruct (count_reaches _ _) as [[]|] eqn:Hr.
        -- intros [= <- <-]. exists m. apply orb_true_iff in Hp.
           rewrite String.eqb_eq in Hp, Hc. auto 10.
        -- intros H. destruct (IH H) as (m' & ?). exists m'. intuition.
        -- discriminate.
      * intros H. destruct (IH H) as (m' & ?). exists m'. intuition.
  - intros H. destruct (IH H) as (m' & ?). exists m'. intuition.
Qed.

Lemma scan_mappings_none (dlq_name : string) (message_count : Z)
    (agents : list AgentRow) (l : list Mapping) :
  (forall m, In m l -> str_contains (mp_dlq_pattern m) dlq_name = false
                       /\ mp_dlq_pattern m <> "*") ->
  scan_mappings dlq_name message_count agents l = inl None.
Proof.
  induction l as [|m l IH]; intros H; simpl; [done|].
  destruct (H m (or_introl eq_refl)) as [H1 H2].
  rewrite H1. apply String.eqb_neq in H2. rewrite H2. simpl.
  apply IH. intros m' Hm'. apply H. by right.
Qed.

(** The agent [find_agent_for_dlq] returns is either the default
    ['investigator'] or the agent of an enabled mapping of the
    environment whose pattern occurs in the queue name (or is ['*']) and
    whose trigger is ['always'] or a reached ['message_count'] threshold:
    ['regex'] and ['manual'] mappings never select an agent. *)
Theorem find_agent_for_dlq_choice (now : Z) (dlq_name : string) (message_count : Z)
    (environment : string) (agents : list AgentRow) (mappings : list Mapping)
    (r : string) :
  fst (find_agent_for_dlq now dlq_name message_count environment agents mappings) = inl r ->
  r = "investigator"
  \/ exists m, In m mappings /\ mapping_selected environment agents m = true
     /\ (str_contains (mp_dlq_pattern m) dlq_name = true \/ mp_dlq_pattern m = "*")
     /\ r = mapping_agent_id agents m
     /\ (mp_trigger_type m = "always"
         \/ (mp_trigger_type m = "message_count"
             /\ count_reaches message_count (rule_threshold (mp_trigger_rule m)) = inl true)).
Proof.
  unfold find_agent_for_dlq.
  destruct (scan_mappings _ _ _ _) as [[[a o]|]|] eqn:Hs; simpl.
  - apply scan_mappings_some in Hs as (m & Hin & Hp & Ha & Ht).
    apply in_sort_by_priority, filter_In in Hin as [Hin Hsel].
    intros Hr. right. exists m.
    assert (a = r) as <- by (destruct o; simpl in Hr; congruence).
    intuition.
  - intros [= <-]. by left.
  - discriminate.
Qed.

(** When no enabled mapping of the environment matches the queue name,
    [find_agent_for_dlq] answers ['investigator'] and updates no trigger
    statistics. *)
Theorem find_agent_for_dlq_default (now : Z) (dlq_name : string) (message_count : Z)
    (environment : string) (agents : list AgentRow) (mappings : list Mapping) :
  (forall m, In m mappings -> mapping_selected environment agents m = true ->
             str_contains (mp_dlq_pattern m) dlq_name = false /\ mp_dlq_pattern m <> "*") ->
  find_agent_for_dlq now dlq_name message_count environment agents mappings
  = (inl "investigator", mappings).
Proof.
  intros H. unfold find_agent_for_dlq. rewrite scan_mappings_none; [done|].
  intros m Hm. apply in_sort_by_priority, filter_In in Hm as [Hm Hsel]. auto.
Qed.

Lemma Forall2_update_bump (now : Z) (m : Mapping) (l : list Mapping) :
  NoDup (map mp_id l) -> In m l -> mp_trigger_type m = "message_count" ->
  Forall2 (fun x x' => x' = x \/ (mp_trigger_type x = "message_count"
                                   /\ x' = bump_trigger now x))
    l (update_first (fun x => Z.eqb (mp_id x) (mp_id m)) (bump_trigger now) l).
Proof.
  intros Hnd Hin Ht. induction l as [|x l IH]; simpl; [done|].
  apply NoDup_cons in Hnd as [Hx Hnd].
  destruct (Z.eqb (mp_id x) (mp_id m)) eqn:E.
  - apply Z.eqb_eq in E. destruct Hin as [<-|Hin].
    + constructor; [by right|]. clear. induction l; constructor; auto.
    + exfalso. apply Hx. rewrite E. apply list_elem_of_In, in_map, Hin.
  - constructor; [by left|]. apply IH; [done|].
    destruct Hin as [<-|Hin]; [by rewrite Z.eqb_refl in E|done].
Qed.

(** [find_agent_for_dlq] changes at most the trigger statistics of one
    ['message_count'] mapping (one more [times_triggered], a new
    [last_triggered]); an ['always'] mapping is never counted. *)
Theorem find_agent_for_dlq_counts_only_thresholds (now : Z) (dlq_name : string)
    (message_count : Z) (environment : string) (agents : list AgentRow)
    (mappings : list Mapping) :
  NoDup (map mp_id mappings) ->
  Forall2 (fun m m' => m' = m \/ (mp_trigger_type m = "message_count"
                                  /\ m' = bump_trigger now m))
    mappings (snd (find_agent_for_dlq now dlq_name message_count environment agents mappings)).
Proof.
  intros Hnd.
  assert (Hrefl : Forall2 (fun m m' => m' = m \/ (mp_trigger_type m = "message_count"
                                                   /\ m' = bump_trigger now m))
                    mappings mappings)
    by (clear; induction mappings; constructor; auto).
  unfold find_agent_for_dlq.
  destruct (scan_mappings _ _ _ _) as [[[a [pk|]]|]|] eqn:Hs; simpl; try done.
  apply scan_mappings_some in Hs as (m & Hin & _ & _ & Ht).
  apply in_sort_by_priority, filter_In in Hin as [Hin _].
  destruct Ht as [[_ ?]|(Ht & _ & [= ->])]; [discriminate|].
  by apply Forall2_update_bump.
Qed.

(** Witnesses. *)
Definition agent_row_investigator : AgentRow :=
  new_agent_row 1 0 "investigator" "Investigation Agent" "Investigates DLQs" "investigation".

Lemma agent_updates_ignore_unknown_agent_witness :
  update_agent_status 5 "ghost" "running" None None [agent_row_investigator]
    = [agent_row_investigator]
  /\ record_agent_performance "ghost" true [agent_row_investigator]
    = [agent_row_investigator].
Proof. apply agent_updates_ignore_unknown_agent. vm_compute. reflexivity. Defined.

Lemma agent_operations_keep_run_counts_witness :
  Forall runs_add_up (record_agent_performance "investigator" false
                        [agent_row_investigator]).
Proof.
  refine (proj2 (proj2 (agent_operations_keep_run_counts 0 "investigator" "" "" ""
                          "idle" None None false [agent_row_investigator] _))).
  repeat constructor.
Defined.

Lemma register_agent_keeps_ids_unique_witness :
  NoDup (map ag_agent_id (register_agent 3 "reviewer" "Review Agent" "" "review"
                            [agent_row_investigator])).
Proof.
  apply register_agent_keeps_ids_unique. repeat constructor. set_solver.
Defined.

Lemma register_agent_again_keeps_activity_witness :
  exists a', find_agent_row (register_agent 3 "investigator" "Renamed" "" ""
                               [count_run true agent_row_investigator]) "investigator"
             = Some a'
    /\ ag_name a' = "Renamed" /\ ag_status a' = "idle"
    /\ ag_total_runs a' = 1 /\ ag_successful_runs a' = 1 /\ ag_failed_runs a' = 0
    /\ ag_started_at a' = None /\ ag_current_task a' = None.
Proof.
  apply (register_agent_again_keeps_activity 3 "investigator" "Renamed" "" ""
           [count_run true agent_row_investigator] (count_run true agent_row_investigator)).
  vm_compute. reflexivity.
Defined.

Lemma mapping_operations_on_unknown_rows_witness :
  create_dlq_mapping "ghost" "orders" "always" None "all" [agent_row_investigator] []
    = (inl false, [])
  /\ delete_dlq_mapping 9 [] = (false, []).
Proof. apply mapping_operations_on_unknown_rows; [vm_compute; reflexivity|done]. Defined.

Lemma create_then_delete_mapping_witness :
  create_dlq_mapping "investigator" "orders" "always" None "all" [agent_row_investigator] []
    = (inl true, snd (create_dlq_mapping "investigator" "orders" "always" None "all"
                        [agent_row_investigator] []))
  /\ delete_dlq_mapping 1 (snd (create_dlq_mapping "investigator" "orders" "always" None
                                  "all" [agent_row_investigator] [])) = (true, []).
Proof.
  split; [vm_compute; reflexivity|].
  apply (create_then_delete_mapping "investigator" "orders" "always" None "all"
           [agent_row_investigator] []).
  vm_compute. reflexivity.
Defined.

Definition mapping_orders (trigger_type : string) (threshold : Z) : Mapping := {|
  mp_id := 1; mp_agent_id := 1; mp_dlq_pattern := "orders";
  mp_trigger_type := trigger_type; mp_trigger_rule := [("threshold", PyInt threshold)];
  mp_environment := "all"; mp_enabled := true; mp_priority := 10;
  mp_times_triggered := 0; mp_last_triggered := None |}.

Lemma find_agent_for_dlq_choice_witness :
  fst (find_agent_for_dlq 0 "orders-dlq" 5 "prod" [agent_row_investigator]
         [mapping_orders "message_count" 3]) = inl "investigator"
  /\ ("investigator" = "investigator"
      \/ exists m, In m [mapping_orders "message_count" 3]
         /\ mapping_selected "prod" [agent_row_investigator] m = true
         /\ (str_contains (mp_dlq_pattern m) "orders-dlq" = true \/ mp_dlq_pattern m = "*")
         /\ "investigator" = mapping_agent_id [agent_row_investigator] m
         /\ (mp_trigger_type m = "always"
             \/ (mp_trigger_type m = "message_count"
                 /\ count_reaches 5 (rule_threshold (mp_trigger_rule m)) = inl true))).
Proof.
  assert (H : fst (find_agent_for_dlq 0 "orders-dlq" 5 "prod" [agent_row_investigator]
                     [mapping_orders "message_count" 3]) = inl "investigator")
    by (vm_compute; reflexivity).
  split; [exact H|]. exact (find_agent_for_dlq_choice _ _ _ _ _ _ _ H).
Defined.

Lemma find_agent_for_dlq_default_witness :
  find_agent_for_dlq 0 "payments-dlq" 5 "prod" [agent_row_investigator]
    [mapping_orders "always" 0]
  = (inl "investigator", [mapping_orders "always" 0]).
Proof.
  apply find_agent_for_dlq_default. intros m [<-|[]] _.
  split; [vm_compute; reflexivity|discriminate].
Defined.

Lemma find_agent_for_dlq_counts_only_thresholds_witness :
  Forall2 (fun m m' => m' = m \/ (mp_trigger_type m = "message_count"
                                  /\ m' = bump_trigger 7 m))
    [mapping_orders "message_count" 3]
    (snd (find_agent_for_dlq 7 "orders-dlq" 5 "prod" [agent_row_investigator]
            [mapping_orders "message_count" 3])).
Proof.
  apply find_agent_for_dlq_counts_only_thresholds. repeat constructor. set_solver.
Defined.

End AgentFacts.

(** * Properties of [get_investigation_details] *)

Module DetailsFacts.
Import NeuroDB NeuroDetails.

Lemma in_insert_by_timestamp (x e : TimelineEvent) (l : list TimelineEvent) :
  In x (insert_by_timestamp e l) <-> x = e \/ In x l.
Proof.
  induction l as [|y l IH]; simpl; [intuition congruence|].
  destruct (ev_timestamp e <=? ev_timestamp y); simpl; [intuition congruence|]. rewrite IH. intuition congruence.
Qed.

Lemma in_sort_by_timestamp (x : TimelineEvent) (l : list TimelineEvent) :
  In x (sort_by_timestamp l) <-> In x l.
Proof.
  induction l as [|y l IH]; simpl; [intuition congruence|].
  rewrite in_insert_by_timestamp, IH. intuition congruence.
Qed.

Definition ts_le (a b : TimelineEvent) : Prop := ev_timestamp a <= ev_timestamp b.

Lemma insert_by_timestamp_sorted (e : TimelineEvent) (l : list TimelineEvent) :
  Sorted ts_le l -> Sorted ts_le (insert_by_timestamp e l).
Proof.
  induction 1 as [|y l Hl IH Hhd]; simpl.
  - repeat constructor.
  - unfold ts_le in *. destruct (ev_timestamp e <=? ev_timestamp y) eqn:E.
    + constructor; [by constructor|]. constructor. unfold ts_le. lia.
    + constructor; [done|].
      destruct l as [|z l]; simpl.
      * constructor. unfold ts_le. lia.
      * inversion Hhd; subst. unfold ts_le in *.
        destruct (ev_timestamp e <=? ev_timestamp z); constructor; unfold ts_le; lia.
Qed.

Lemma sort_by_timestamp_sorted (l : list TimelineEvent) : Sorted ts_le (sort_by_timestamp l).
Proof. induction l; simpl; [constructor|]. by apply insert_by_timestamp_sorted. Qed.

(** [get_investigation_details] returns the stored investigation with
    exactly its own timeline events ([investigation_id] equal to the
    row's integer key), ordered by timestamp. *)
Theorem investigation_details_timeline (db : DB) (iid : string)
    (r : Investigation) (evs : list TimelineEvent) :
  get_investigation_details db iid = Some (r, evs) ->
  find_investigation db iid = Some r
  /\ Sorted (fun a b => ev_timestamp a <= ev_timestamp b) evs
  /\ (forall e, In e evs <-> In e (db_timeline db) /\ ev_investigation_id e = row_pk r).
Proof.
  unfold get_investigation_details.
  destruct (find_investigation db iid) as [r'|]; [|discriminate]. intros [= <- <-].
  split; [done|]. split; [apply sort_by_timestamp_sorted|].
  intros e. rewrite in_sort_by_timestamp, filter_In, Z.eqb_eq. tauto.
Qed.

(** An event added with [add_timeline_event] to a stored investigation
    shows in the timeline of [get_investigation_details]. *)
Theorem added_event_in_details (now : Z) (iid event_type event_title : string)
    (descr icon agent : option string) (db : DB) (r : Investigation) :
  find_investigation db iid = Some r ->
  exists evs, get_investigation_details
                (add_timeline_event now iid event_type event_title descr icon agent db) iid
              = Some (r, evs)
    /\ exists e, In e evs /\ ev_event_type e = event_type
                /\ ev_event_title e = event_title /\ ev_timestamp e = now.
Proof.
  intros Hr. unfold get_investigation_details.
  assert (Hf : find_investigation (add_timeline_event now iid event_type event_title
                                     descr icon agent db) iid = Some r).
  { unfold find_investigation. rewrite NeuroDBFacts.add_timeline_event_investigations.
    exact Hr. }
  rewrite Hf. eexists. split; [reflexivity|].
  unfold add_timeline_event. rewrite Hr. simpl.
  eexists. split.
  - apply in_sort_by_timestamp, filter_In. split.
    + apply in_or_app. right. left. reflexivity.
    + apply Z.eqb_refl.
  - simpl. auto.
Qed.

(** Witnesses. *)
Definition small_row : Investigation :=
  <["investigation_id" := PyStr "inv_1"]> (<["id" := PyInt 1]> ∅).

Definition small_event (id inv ts : Z) : TimelineEvent := {|
  ev_id := id; ev_investigation_id := inv; ev_agent_id := None;
  ev_event_type := "analyzing"; ev_event_title := "Analyzing";
  ev_event_description := None; ev_event_icon := "cpu"; ev_timestamp := ts |}.

Definition small_db : DB := {|
  db_agents := []; db_investigations := [small_row];
  db_timeline := [small_event 1 1 9; small_event 2 2 3; small_event 3 1 5] |}.

Lemma investigation_details_timeline_witness :
  get_investigation_details small_db "inv_1"
    = Some (small_row, [small_event 3 1 5; small_event 1 1 9])
  /\ Sorted (fun a b => ev_timestamp a <= ev_timestamp b)
       [small_event 3 1 5; small_event 1 1 9].
Proof.
  assert (H : get_investigation_details small_db "inv_1"
                = Some (small_row, [small_event 3 1 5; small_event 1 1 9]))
    by reflexivity.
  split; [exact H|].
  exact (proj1 (proj2 (investigation_details_timeline _ _ _ _ H))).
Defined.

Lemma added_event_in_details_witness :
  exists evs, get_investigation_details
                (add_timeline_event 12 "inv_1" "completed" "Done" None None None small_db)
                "inv_1" = Some (small_row, evs)
    /\ exists e, In e evs /\ ev_event_type e = "completed"
                /\ ev_event_title e = "Done" /\ ev_timestamp e = 12.
Proof. apply added_event_in_details. reflexivity. Defined.

End DetailsFacts.

(** * Properties of [InvestigationService] *)

Module ServiceFacts.
Import NeuroDB NeuroAgents NeuroService.

Lemma update_investigation_timeline (now : Z) (iid : string)
    (kw : list (string * pyval)) (db : DB) :
  db_timeline (update_investigation now iid kw db) = db_timeline db.
Proof. unfold update_investigation. by destruct (find_investigation db iid). Qed.

Lemma update_investigation_agents (now : Z) (iid : string)
    (kw : list (string * pyval)) (db : DB) :
  db_agents (update_investigation now iid kw db) = db_agents db.
Proof. unfold update_investigation. by destruct (find_investigation db iid). Qed.

Lemma add_timeline_event_cases (now : Z) (iid ty title : string)
    (descr icon agent : option string) (db : DB) :
  add_timeline_event now iid ty title descr icon agent db = db
  \/ exists e, add_timeline_event now iid ty title descr icon agent db
               = {| db_agents := db_agents db; db_investigations := db_investigations db;
                    db_timeline := db_timeline db ++ [e] |}
      /\ ev_event_type e = ty /\ ev_event_title e = title
      /\ ev_event_icon e = match icon with
                           | Some i => if String.eqb i "" then "info-circle" else i
                           | None => "info-circle"
                           end.
Proof.
  unfold add_timeline_event. destruct (find_investigation db iid); [|by left].
  right. eexists. split; [reflexivity|]. simpl. auto.
Qed.

Lemma add_timeline_event_found (now : Z) (iid ty title : string)
    (descr icon agent : option string) (db : DB) (r : Investigation) :
  find_investigation db iid = Some r ->
  exists e, add_timeline_event now iid ty title descr icon agent db
            = {| db_agents := db_agents db; db_investigations := db_investigations db;
                 db_timeline := db_timeline db ++ [e] |}
    /\ ev_event_type e = ty /\ ev_event_title e = title
    /\ ev_event_icon e = match icon with
                         | Some i => if String.eqb i "" then "info-circle" else i
                         | None => "info-circle"
                         end.
Proof.
  intros Hr. unfold add_timeline_event. rewrite Hr.
  eexists. split; [reflexivity|]. simpl. auto.
Qed.

Lemma get_event_icon_shape (event_type : string) :
  get_event_icon event_type <> "" /\ get_event_icon event_type <> "info-circle".
Proof.
  unfold get_event_icon.
  destruct (find _ event_icon_map) as [[k v]|] eqn:E; simpl; [|split; discriminate].
  apply find_some in E as [Hin _].
  repeat (destruct Hin as [Hin|Hin]; [injection Hin as <- <-; split; discriminate|]).
  destruct Hin.
Qed.

(** [update_investigation_progress] on an investigation that is not in
    [active_investigations] (never started by this service, or already
    completed) writes the progress and status but adds no timeline
    event. *)
Theorem progress_of_inactive_investigation_not_logged (now : Z) (iid : string)
    (progress : Z) (status event_type event_title : string)
    (event_description : option string) (s : Svc) :
  svc_active s !! iid = None ->
  svc_timeline (update_investigation_progress now iid progress status event_type
                  event_title event_description s) = svc_timeline s.
Proof.
  intros H. unfold update_investigation_progress. simpl. rewrite H. simpl.
  apply update_investigation_timeline.
Qed.

(** The events [update_investigation_progress] adds carry the icon
    [_get_event_icon] gives for their type: never empty, so never the
    ['info-circle'] default of [add_timeline_event]. *)
Theorem progress_events_use_type_icon (now : Z) (iid : string)
    (progress : Z) (status event_type event_title : string)
    (event_description : option string) (s : Svc) :
  exists extra,
    svc_timeline (update_investigation_progress now iid progress status event_type
                    event_title event_description s) = (svc_timeline s ++ extra)%list
    /\ Forall (fun e => ev_event_icon e = get_event_icon event_type
                        /\ ev_event_icon e <> "info-circle") extra.
Proof.
  unfold update_investigation_progress. simpl.
  destruct (svc_active s !! iid) as [act|]; simpl.
  - destruct (get_event_icon_shape event_type) as [Hne Hnic].
    match goal with
    | |- context [add_timeline_event ?n ?i ?t ?ti ?d ?ic ?ag ?db] =>
        destruct (add_timeline_event_cases n i t ti d ic ag db) as [->|(e & -> & _ & _ & Hi)]
    end; simpl.
    + exists []. rewrite app_nil_r. split; [apply update_investigation_timeline|constructor].
    + exists [e]. rewrite update_investigation_timeline. split; [done|].
      apply String.eqb_neq in Hne. rewrite Hne in Hi.
      constructor; [|constructor]. rewrite Hi. split; [done|]. apply String.eqb_neq in Hne.
      exact Hnic.
  - exists []. rewrite app_nil_r. split; [apply update_investigation_timeline|constructor].
Qed.

(** After [complete_investigation] the investigation has left
    [active_investigations]; a second [complete_investigation] of it
    only rewrites status and progress: it adds no timeline event and
    does not touch the agents again. *)
Theorem complete_investigation_second_call (now now' : Z) (iid : string)
    (success success' : bool) (notes notes' : option string) (s : Svc) :
  let s1 := complete_investigation now iid success notes s in
  svc_active s1 !! iid = None
  /\ svc_timeline (complete_investigation now' iid success' notes' s1) = svc_timeline s1
  /\ svc_agents (complete_investigation now' iid success' notes' s1) = svc_agents s1.
Proof.
  assert (Hnone : forall s1, svc_active s1 !! iid = None ->
    svc_timeline (complete_investigation now' iid success' notes' s1) = svc_timeline s1
    /\ svc_agents (complete_investigation now' iid success' notes' s1) = svc_agents s1).
  { intros s1 H. unfold complete_investigation. simpl. rewrite H. simpl.
    split; [apply update_investigation_timeline|done]. }
  simpl. assert (Ha : svc_active (complete_investigation now iid success notes s) !! iid = None).
  { unfold complete_investigation. simpl.
    destruct (svc_active s !! iid) eqn:E; simpl; [by rewrite lookup_delete_eq|exact E]. }
  split; [exact Ha|]. by apply Hnone.
Qed.

(** Completing an investigation of [active_investigations] sets its
    agent ['idle'] with no start time and counts one more run for it,
    successful or failed as told. *)
Theorem complete_investigation_releases_agent (now : Z) (iid : string) (success : bool)
    (notes : option string) (s : Svc) (act : Active) (a : AgentRow) :
  svc_active s !! iid = Some act ->
  find_agent_row (svc_agents s) (act_agent_id act) = Some a ->
  exists a', find_agent_row (svc_agents (complete_investigation now iid success notes s))
               (act_agent_id act) = Some a'
    /\ ag_status a' = "idle" /\ ag_started_at a' = None
    /\ ag_total_runs a' = ag_total_runs a + 1
    /\ ag_successful_runs a' = ag_successful_runs a + (if success then 1 else 0)
    /\ ag_failed_runs a' = ag_failed_runs a + (if success then 0 else 1).
Proof.
  intros Hact Ha. unfold complete_investigation. simpl. rewrite Hact. simpl.
  unfold record_agent_performance, update_agent_status.
  pose proof (AgentFacts.find_agent_row_update _ (act_agent_id act)
                (set_agent_status now "idle" None None) a (fun _ => eq_refl) Ha) as H1.
  pose proof (AgentFacts.find_agent_row_update _ (act_agent_id act)
                (count_run success) _ (fun _ => eq_refl) H1) as H2.
  eexists. split; [exact H2|]. simpl.
  destruct success; repeat split; lia.
Qed.

Lemma svc_find_update (now : Z) (iid : string) (kw : list (string * pyval)) (s : Svc)
    (r : Investigation) :
  find_investigation (svc_db s) iid = Some r -> "investigation_id" ∉ map fst kw ->
  find_investigation (svc_db (with_db (update_investigation now iid kw (svc_db s)) s)) iid
  = Some (update_row now kw r).
Proof.
  intros Hr Hk. unfold find_investigation at 1. simpl.
  pose proof (NeuroDBFacts.find_after_update now iid kw (svc_db s) r Hr Hk) as H.
  exact H.
Qed.

(** A failed completion of an active, stored investigation stores status
    ['failed'] with progress 100 and appends one timeline event whose
    type is ['completed'] (title ['Investigation failed'], icon
    ['x-circle']). *)
Theorem failed_completion_logged_as_completed (now : Z) (iid : string)
    (notes : option string) (s : Svc) (act : Active) (r : Investigation) :
  svc_active s !! iid = Some act ->
  find_investigation (svc_db s) iid = Some r ->
  let s' := complete_investigation now iid false notes s in
  (exists r', find_investigation (svc_db s') iid = Some r'
              /\ r' !! "status" = Some (PyStr "failed")
              /\ r' !! "progress" = Some (PyInt 100))
  /\ exists e, svc_timeline s' = (svc_timeline s ++ [e])%list
     /\ ev_event_type e = "completed" /\ ev_event_title e = "Investigation failed"
     /\ ev_event_icon e = "x-circle".
Proof.
  intros Hact Hr. simpl.
  set (kw := [("status", PyStr "failed"); ("progress", PyInt 100)]).
  assert (Hk : "investigation_id" ∉ map fst kw) by (vm_compute; set_solver).
  assert (Hnd : NoDup (map fst kw)) by (apply (bool_decide_unpack _); vm_compute; exact I).
  pose proof (svc_find_update now iid kw s r Hr Hk) as Hf.
  set (s1 := with_db (update_investigation now iid kw (svc_db s)) s) in Hf.
  unfold complete_investigation. fold kw. fold s1. simpl (svc_active s1). rewrite Hact.
  set (s3 := set_agents _ (set_agents _ s1)).
  assert (Hf3 : find_investigation (svc_db s3) iid = Some (update_row now kw r)) by exact Hf.
  destruct (add_timeline_event_found now iid "completed" "Investigation failed" notes
              (Some "x-circle") (Some (act_agent_id act)) (svc_db s3) _ Hf3)
    as (e & He & Ht & Hti & Hi).
  rewrite He. simpl. split.
  - eexists. split; [exact Hf3|].
    rewrite !NeuroDBFacts.update_row_lookup by discriminate.
    split; apply NeuroDBFacts.setattr_loop_in; try done; simpl; auto; vm_compute; reflexivity.
  - exists e. split.
    + unfold s3, s1. simpl. by rewrite update_investigation_timeline.
    + split; [done|]. split; [done|]. rewrite Hi. reflexivity.
Qed.


(** Witnesses. *)
Definition small_row : Investigation :=
  <["investigation_id" := PyStr "inv_1"]> (<["id" := PyInt 1]> ∅).

Definition investigator_row : AgentRow :=
  set_agent_status 0 "running" (Some "Investigating orders-dlq") (Some "orders-dlq")
    (new_agent_row 1 0 "investigator" "Investigation Agent" "" "investigation").

Definition active_orders : Active :=
  {| act_dlq_name := "orders-dlq"; act_agent_id := "investigator"; act_started_at := 0 |}.

(** One investigation, started by the service (when [active]) or not. *)
Definition small_svc (active : bool) : Svc := {|
  svc_agents := [investigator_row]; svc_mappings := [];
  svc_investigations := [small_row]; svc_timeline := [];
  svc_active := if active then {[ "inv_1" := active_orders ]} else ∅ |}.

Lemma progress_of_inactive_investigation_not_logged_witness :
  svc_timeline (update_investigation_progress 5 "inv_1" 25 "analyzing" "analyzing"
                  "Analyzing DLQ messages" None (small_svc false)) = [].
Proof. apply (progress_of_inactive_investigation_not_logged _ _ _ _ _ _ _ (small_svc false)).
  reflexivity. Defined.

Lemma complete_investigation_releases_agent_witness :
  exists a', find_agent_row (svc_agents (complete_investigation 9 "inv_1" true None
                                            (small_svc true))) "investigator" = Some a'
    /\ ag_status a' = "idle" /\ ag_started_at a' = None
    /\ ag_total_runs a' = 0 + 1
    /\ ag_successful_runs a' = 0 + 1
    /\ ag_failed_runs a' = 0 + 0.
Proof.
  apply (complete_investigation_releases_agent 9 "inv_1" true None (small_svc true)
           active_orders investigator_row); reflexivity.
Defined.

Lemma failed_completion_logged_as_completed_witness :
  let s' := complete_investigation 9 "inv_1" false None (small_svc true) in
  (exists r', find_investigation (svc_db s') "inv_1" = Some r'
              /\ r' !! "status" = Some (PyStr "failed")
              /\ r' !! "progress" = Some (PyInt 100))
  /\ exists e, svc_timeline s' = ([] ++ [e])%list
     /\ ev_event_type e = "completed" /\ ev_event_title e = "Investigation failed"
     /\ ev_event_icon e = "x-circle".
Proof.
  apply (failed_completion_logged_as_completed 9 "inv_1" None (small_svc true)
           active_orders small_row); reflexivity.
Defined.


End ServiceFacts.

(** * Properties of the pull request reminders *)

Module PRWatchFacts.
Import PRWatch.

Lemma str_replace_char_spec (old new : Ascii.ascii) (s : string) (c : Ascii.ascii) :
  c <> new -> c ∈ list_ascii_of_string (str_replace_char old new s) ->
  c <> old /\ c ∈ list_ascii_of_string s.
Proof.
  intros Hn. induction s as [|d s IH]; simpl; [set_solver|].
  rewrite !elem_of_cons. intros [Hc|Hc].
  - destruct (Ascii.eqb_spec d old) as [->|Hd]; [congruence|]. subst. auto.
  - destruct (IH Hc). auto.
Qed.

Lemma str_replace_char_length (old new : Ascii.ascii) (s : string) :
  String.length (str_replace_char old new s) = String.length s.
Proof. induction s; simpl; auto. Qed.

(** The repository name and title spoken by [AudioNotifier] contain no
    ['-'] and no ['_'] (both become spaces), and keep their length. *)
Theorem speech_text_has_no_separators (s : string) :
  (char_hyphen ∉ list_ascii_of_string (clean_for_speech s))
  /\ (char_underscore ∉ list_ascii_of_string (clean_for_speech s))
  /\ String.length (clean_for_speech s) = String.length s.
Proof.
  unfold clean_for_speech. split; [|split].
  - intros H. apply str_replace_char_spec in H as [_ H]; [|discriminate].
    apply str_replace_char_spec in H as [H _]; [done|discriminate].
  - intros H. apply str_replace_char_spec in H as [H _]; [done|discriminate].
  - by rewrite !str_replace_char_length.
Qed.

(** [handle_pr_alerts] never forgets a tracked PR, and when it returns
    normally every PR it was given is tracked. *)
Theorem handle_pr_alerts_tracks (say_missing : bool) (interval now : Z)
    (alerts : list PRAlert) (tracked tracked' : gmap Z PRAlert)
    (spoken spoken' : list Announcement) :
  handle_pr_alerts say_missing interval now alerts tracked spoken
    = (inl tt, (tracked', spoken')) ->
  (forall k, is_Some (tracked !! k) -> is_Some (tracked' !! k))
  /\ Forall (fun a => is_Some (tracked' !! pr_id a)) alerts.
Proof.
  revert tracked spoken.
  induction alerts as [|a rest IH]; intros tracked spoken; simpl.
  - intros [= <- <-]. auto.
  - destruct (tracked !! pr_id a) as [ex|] eqn:Ht.
    + destruct (should_send_reminder interval now ex); [destruct say_missing; [discriminate|]|].
      * intros H. destruct (IH _ _ H) as [Hk Hall]. split.
        -- intros k Hk'. apply Hk. rewrite lookup_insert.
           case_decide; [done|exact Hk'].
        -- constructor; [|done]. apply Hk. by rewrite lookup_insert_eq.
      * intros H. destruct (IH _ _ H) as [Hk Hall]. split; [done|].
        constructor; [|done]. apply Hk. by rewrite Ht.
    + destruct say_missing; [discriminate|].
      intros H. destruct (IH _ _ H) as [Hk Hall]. split.
      * intros k Hk'. apply Hk. rewrite lookup_insert. case_decide; [done|exact Hk'].
      * constructor; [|done]. apply Hk. by rewrite lookup_insert_eq.
Qed.

(** Once a reminder has been spoken for a tracked PR at [t1], handling the
    PR again before [t1 + pr_reminder_interval] speaks nothing and
    changes nothing. *)
Theorem reminder_not_repeated_within_interval (interval t1 t2 : Z) (a ex : PRAlert)
    (tracked tracked1 : gmap Z PRAlert) (spoken spoken1 : list Announcement) :
  tracked !! pr_id a = Some ex ->
  handle_pr_alerts false interval t1 [a] tracked spoken = (inl tt, (tracked1, spoken1)) ->
  spoken1 <> spoken ->
  t1 <= t2 < t1 + interval * us_per_second ->
  handle_pr_alerts false interval t2 [a] tracked1 spoken1 = (inl tt, (tracked1, spoken1)).
Proof.
  intros Ht H1 Hsp Htime. simpl in H1. rewrite Ht in H1.
  destruct (should_send_reminder interval t1 ex); [|congruence].
  injection H1 as <- <-. simpl. rewrite lookup_insert_eq.
  unfold should_send_reminder. simpl.
  replace (interval * us_per_second <=? t2 - t1) with false by lia. done.
Qed.

(** Witnesses. *)
Definition pr_fix : PRAlert := {|
  pr_id := 42; pr_repo_name := "lpd-api"; pr_title := "Auto-fix DLQ";
  pr_author := "github-actions[bot]"; pr_url := "https://github.com/lpd/api/pull/42";
  pr_created_at := 0; pr_first_seen := 0; pr_last_reminder := None |}.

Lemma handle_pr_alerts_tracks_witness :
  (forall k, is_Some ((∅ : gmap Z PRAlert) !! k) -> is_Some (({[42 := pr_fix]} : gmap Z PRAlert) !! k))
  /\ Forall (fun a => is_Some (({[42 := pr_fix]} : gmap Z PRAlert) !! pr_id a)) [pr_fix].
Proof.
  apply (handle_pr_alerts_tracks false 600 0 [pr_fix] ∅ {[42 := pr_fix]} []
           [announce_new_pr "lpd-api" "Auto-fix DLQ"]).
  reflexivity.
Defined.

Lemma reminder_not_repeated_within_interval_witness :
  let r := handle_pr_alerts false 600 (600 * us_per_second) [pr_fix] {[42 := pr_fix]} [] in
  handle_pr_alerts false 600 (700 * us_per_second) [pr_fix] (fst (snd r)) (snd (snd r))
  = (inl tt, (fst (snd r), snd (snd r))).
Proof.
  intros r.
  apply (reminder_not_repeated_within_interval 600 (600 * us_per_second) (700 * us_per_second)
           pr_fix pr_fix {[42 := pr_fix]} (fst (snd r)) [] (snd (snd r))).
  - reflexivity.
  - reflexivity.
  - vm_compute. discriminate.
  - unfold us_per_second. lia.
Defined.

End PRWatchFacts.

